(** * Project/task tracker API: the two servers and the store they share

    A shallow embedding of the two Express servers of the repository:

    - [Jwt]      is [src/server.js], the stateless bearer-token server;
    - [Session]  is [src/unnamed/part_000], the server on [express-session].

    Both talk to the same three Sequelize models ([User], [Project],
    [Task]) through [require('./database/setup')].  That file is not among
    the sources, so what it fixes (column defaults, validators, foreign
    keys) is gathered in the record [Store.Schema] and every operation of
    the store takes it as an argument.

    Conventions of the embedding.
    - Requests are handled one at a time: a handler is a function from the
      state before the request to a response and the state after it.
    - A rejected promise of a model call is [Threw]; inside [try]/[catch] a
      handler turns it into its 500 answer, elsewhere it leaves the handler
      as [Unhandled] (the handler itself writes no response).
    - Body fields that the handlers destructure with a default, or that an
      update may leave out, are [option]s ([None] is JavaScript's
      [undefined]), and so is the password of a login, which
      [bcrypt.compare] rejects when it is missing; the other fields the
      handlers use unconditionally are plain values.
    - Identifiers are the store's auto-increment integers, time is an
      integer clock. *)

From stdpp Require Import gmap strings list.
From Stdlib Require Import ZArith Lia.

Open Scope string_scope.

(** ** The store: the models of [./database/setup] as the servers use them

    The model calls follow Sequelize: [create] checks the row and appends
    it under the table's next identifier; a bulk [update] and an instance
    [update] check the values first, skip the keys that are [undefined],
    and a bulk [update] reports the number of rows its [where] matched;
    [destroy] reports the number of rows it deleted.  A call whose check
    fails rejects and leaves the tables as they were. *)

Module Store.

Record User := mkUser {
  user_id : nat;
  user_name : string;
  user_email : string;
  user_password : string;   (* the bcrypt hash, never the plain text *)
  user_role : string
}.

Record Project := mkProject {
  project_id : nat;
  project_name : string;
  project_description : option string;
  project_status : string;
  project_managerId : nat
}.

Record Task := mkTask {
  task_id : nat;
  task_title : string;
  task_description : option string;
  task_projectId : nat;
  task_assignedUserId : option nat;
  task_priority : string;
  task_status : string
}.

(** Modelled from the spec: the model definitions of [./database/setup]
    are missing from the sources.  The spec's data model (section 3) names
    the points a definition can settle: the default of [User.role], which
    values of [User.role] and [Task.priority] the store accepts, whether
    [User.email] carries a unique constraint, and whether the foreign keys
    are checked when a row is written. *)
Record Schema := mkSchema {
  roleDefault : string;
  roleAccepted : string -> bool;
  priorityAccepted : string -> bool;
  emailUnique : bool;
  foreignKeys : bool
}.

Record Db := mkDb {
  users : list User;
  projects : list Project;
  tasks : list Task;
  userSeq : nat;       (* the next identifier each table hands out *)
  projectSeq : nat;
  taskSeq : nat
}.

Definition empty : Db := mkDb [] [] [] 1 1 1.

(** What a rejected promise carries: one of the store's errors, the
    [TypeError] of reading a property of [undefined], or the error
    [bcrypt.compare] rejects with when an argument is not a string. *)
Inductive Error :=
  | ValidationError (attribute : string)
  | UniqueConstraintError (attribute : string)
  | ForeignKeyConstraintError (attribute : string)
  | TypeError (message : string)
  | IllegalArguments (message : string).

(** The settled value of the promise a model call returns. *)
Inductive Result (A : Type) :=
  | Ok (a : A)
  | Threw (e : Error).
Arguments Ok {A} a.
Arguments Threw {A} e.

(** *** User *)

(** [User.findOne({ where: { email } })]: the first row with that email. *)
Definition User_findOne (email : string) (db : Db) : option User :=
  find (fun u => String.eqb (user_email u) email) (users db).

Definition User_findByPk (id : nat) (db : Db) : option User :=
  find (fun u => Nat.eqb (user_id u) id) (users db).

Definition User_findAll (db : Db) : list User := users db.

(** [User.create({ name, email, password[, role] })]. *)
Definition User_create (sch : Schema) (name email password : string)
    (role : option string) (db : Db) : Result (User * Db) :=
  let r := default (roleDefault sch) role in
  if negb (roleAccepted sch r) then Threw (ValidationError "role")
  else if emailUnique sch
          && existsb (fun u => String.eqb (user_email u) email) (users db)
  then Threw (UniqueConstraintError "email")
  else
    let u := mkUser (userSeq db) name email password r in
    Ok (u, mkDb (users db ++ [u]) (projects db) (tasks db)
                (S (userSeq db)) (projectSeq db) (taskSeq db)).

(** *** Project *)

Definition Project_findByPk (id : nat) (db : Db) : option Project :=
  find (fun p => Nat.eqb (project_id p) id) (projects db).

Definition Project_findAll (db : Db) : list Project := projects db.

Definition references_user (id : nat) (db : Db) : bool :=
  existsb (fun u => Nat.eqb (user_id u) id) (users db).

Definition references_project (id : nat) (db : Db) : bool :=
  existsb (fun p => Nat.eqb (project_id p) id) (projects db).

(** [Project.create({ name, description, status, managerId })]. *)
Definition Project_create (sch : Schema) (name : string)
    (description : option string) (status : string) (managerId : nat)
    (db : Db) : Result (Project * Db) :=
  if foreignKeys sch && negb (references_user managerId db)
  then Threw (ForeignKeyConstraintError "managerId")
  else
    let p := mkProject (projectSeq db) name description status managerId in
    Ok (p, mkDb (users db) (projects db ++ [p]) (tasks db)
                (userSeq db) (S (projectSeq db)) (taskSeq db)).

(** The fields of a project an update can carry.  [Model.update] and
    [instance.update] both skip the keys whose value is [undefined]. *)
Record ProjectPatch := mkProjectPatch {
  pp_name : option string;
  pp_description : option string;
  pp_status : option string;
  pp_managerId : option nat
}.

Definition patch_project (v : ProjectPatch) (p : Project) : Project :=
  mkProject (project_id p)
            (default (project_name p) (pp_name v))
            (match pp_description v with
             | Some d => Some d
             | None => project_description p
             end)
            (default (project_status p) (pp_status v))
            (default (project_managerId p) (pp_managerId v)).

Definition project_patch_empty (v : ProjectPatch) : bool :=
  match pp_name v, pp_description v, pp_status v, pp_managerId v with
  | None, None, None, None => true
  | _, _, _, _ => false
  end.

Definition check_project_patch (sch : Schema) (v : ProjectPatch) (db : Db)
    : option Error :=
  match pp_managerId v with
  | Some m =>
      if foreignKeys sch && negb (references_user m db)
      then Some (ForeignKeyConstraintError "managerId") else None
  | None => None
  end.

Definition set_projects (ps : list Project) (db : Db) : Db :=
  mkDb (users db) ps (tasks db) (userSeq db) (projectSeq db) (taskSeq db).

Definition set_tasks (ts : list Task) (db : Db) : Db :=
  mkDb (users db) (projects db) ts (userSeq db) (projectSeq db) (taskSeq db).

Definition has_project_id (id : nat) (p : Project) : bool :=
  Nat.eqb (project_id p) id.

Definition has_task_id (id : nat) (t : Task) : bool :=
  Nat.eqb (task_id t) id.

(** [Project.update(values, { where: { id } })]: the number of rows the
    statement matched, after the values passed the store's checks.  With
    nothing left to set Sequelize skips the statement and reports 0. *)
Definition Project_update (sch : Schema) (v : ProjectPatch) (id : nat)
    (db : Db) : Result (nat * Db) :=
  match check_project_patch sch v db with
  | Some e => Threw e
  | None =>
      if project_patch_empty v then Ok (0, db)
      else
        Ok (length (filter (fun p => has_project_id id p = true) (projects db)),
            set_projects
              (map (fun p => if has_project_id id p then patch_project v p else p)
                   (projects db)) db)
  end.

(** [project.update(values)] on the instance [findByPk] returned. *)
Definition Project_instance_update (sch : Schema) (v : ProjectPatch)
    (p : Project) (db : Db) : Result (Project * Db) :=
  match check_project_patch sch v db with
  | Some e => Threw e
  | None =>
      Ok (patch_project v p,
          set_projects
            (map (fun q => if has_project_id (project_id p) q
                           then patch_project v q else q)
                 (projects db)) db)
  end.

(** Whether some task row names the project. *)
Definition has_tasks (id : nat) (db : Db) : bool :=
  existsb (fun t => Nat.eqb (task_projectId t) id) (tasks db).

(** [Project.destroy({ where: { id } })]: the number of rows deleted.  A
    store that checks foreign keys refuses to delete a project that task
    rows still name; a store that does not deletes it and leaves those
    rows as they are.  When no row has the id there is nothing to refuse. *)
Definition Project_destroy (sch : Schema) (id : nat) (db : Db)
    : Result (nat * Db) :=
  let doomed := filter (fun p => has_project_id id p = true) (projects db) in
  if foreignKeys sch && negb (Nat.eqb (length doomed) 0) && has_tasks id db
  then Threw (ForeignKeyConstraintError "projectId")
  else
    Ok (length doomed,
        set_projects (filter (fun p => has_project_id id p = false) (projects db))
                     db).

(** *** Task *)

Definition Task_findByPk (id : nat) (db : Db) : option Task :=
  find (has_task_id id) (tasks db).

(** [Task.findAll({ where: { projectId } })]. *)
Definition Task_findAll_of (projectId : nat) (db : Db) : list Task :=
  filter (fun t => Nat.eqb (task_projectId t) projectId = true) (tasks db).

Definition check_assignee (sch : Schema) (a : option nat) (db : Db) : bool :=
  match a with
  | Some u => negb (foreignKeys sch) || references_user u db
  | None => true
  end.

(** [Task.create({ title, description, projectId, assignedUserId,
    priority, status })]. *)
Definition Task_create (sch : Schema) (title : string)
    (description : option string) (projectId : nat)
    (assignedUserId : option nat) (priority status : string) (db : Db)
    : Result (Task * Db) :=
  if negb (priorityAccepted sch priority)
  then Threw (ValidationError "priority")
  else if foreignKeys sch && negb (references_project projectId db)
  then Threw (ForeignKeyConstraintError "projectId")
  else if negb (check_assignee sch assignedUserId db)
  then Threw (ForeignKeyConstraintError "assignedUserId")
  else
    let t := mkTask (taskSeq db) title description projectId assignedUserId
                    priority status in
    Ok (t, mkDb (users db) (projects db) (tasks db ++ [t])
                (userSeq db) (projectSeq db) (S (taskSeq db))).

(** The columns of a task an update can carry (the identifier is not one
    of them). *)
Record TaskPatch := mkTaskPatch {
  tp_title : option string;
  tp_description : option string;
  tp_status : option string;
  tp_priority : option string;
  tp_assignedUserId : option nat;
  tp_projectId : option nat
}.

Definition patch_task (v : TaskPatch) (t : Task) : Task :=
  mkTask (task_id t)
         (default (task_title t) (tp_title v))
         (match tp_description v with
          | Some d => Some d
          | None => task_description t
          end)
         (default (task_projectId t) (tp_projectId v))
         (match tp_assignedUserId v with
          | Some a => Some a
          | None => task_assignedUserId t
          end)
         (default (task_priority t) (tp_priority v))
         (default (task_status t) (tp_status v)).

Definition task_patch_empty (v : TaskPatch) : bool :=
  match tp_title v, tp_description v, tp_status v, tp_priority v,
        tp_assignedUserId v, tp_projectId v with
  | None, None, None, None, None, None => true
  | _, _, _, _, _, _ => false
  end.

(** The first failure of two checks, in the order they are run. *)
Definition or_else (a b : option Error) : option Error :=
  match a with
  | Some e => Some e
  | None => b
  end.

Definition check_task_patch (sch : Schema) (v : TaskPatch) (db : Db)
    : option Error :=
  or_else
    match tp_priority v with
    | Some p =>
        if negb (priorityAccepted sch p) then Some (ValidationError "priority")
        else None
    | None => None
    end
    (or_else
       match tp_projectId v with
       | Some p =>
           if foreignKeys sch && negb (references_project p db)
           then Some (ForeignKeyConstraintError "projectId") else None
       | None => None
       end
       (if check_assignee sch (tp_assignedUserId v) db then None
        else Some (ForeignKeyConstraintError "assignedUserId"))).

(** [Task.update(values, { where: { id } })]. *)
Definition Task_update (sch : Schema) (v : TaskPatch) (id : nat) (db : Db)
    : Result (nat * Db) :=
  match check_task_patch sch v db with
  | Some e => Threw e
  | None =>
      if task_patch_empty v then Ok (0, db)
      else
        Ok (length (filter (fun t => has_task_id id t = true) (tasks db)),
            set_tasks
              (map (fun t => if has_task_id id t then patch_task v t else t)
                   (tasks db)) db)
  end.

(** [task.update(values)] on the instance [findByPk] returned. *)
Definition Task_instance_update (sch : Schema) (v : TaskPatch) (t : Task)
    (db : Db) : Result (Task * Db) :=
  match check_task_patch sch v db with
  | Some e => Threw e
  | None =>
      Ok (patch_task v t,
          set_tasks
            (map (fun q => if has_task_id (task_id t) q
                           then patch_task v q else q)
                 (tasks db)) db)
  end.

(** [Task.destroy({ where: { id } })]. *)
Definition Task_destroy (id : nat) (db : Db) : nat * Db :=
  (length (filter (fun t => has_task_id id t = true) (tasks db)),
   set_tasks (filter (fun t => has_task_id id t = false) (tasks db)) db).

End Store.

(** ** jsonwebtoken: signed, self-describing tokens *)

Module Token.

(** The claim set of a token: what the servers put in, and the two
    timestamps [jwt.sign] adds. *)
Record Payload := mkPayload {
  id : nat;
  name : string;
  email : string;
  role : string;
  iat : Z;
  exp : Z
}.

(** A presented token is either a well-formed one, with its claim set and
    its signature, or a string that does not parse as one.  The compact
    serialisation itself is not modelled. *)
Inductive Jwt :=
  | Signed (p : Payload) (signature : string)
  | Malformed (s : string).

Section Hmac.
(** The keyed digest the signature is made of. *)
Variable hmac : string -> Payload -> string.

(** [jwt.sign({ id, name, email, role }, secret, { expiresIn })]. *)
Definition sign (id : nat) (name email role : string) (secret : string)
    (expiresIn : Z) (now : Z) : Jwt :=
  let p := mkPayload id name email role now (now + expiresIn) in
  Signed p (hmac secret p).

(** [jwt.verify(token, secret)]: the claim set, or [None] where the
    library throws (bad signature, expired, unreadable). *)
Definition verify (t : Jwt) (secret : string) (now : Z) : option Payload :=
  match t with
  | Malformed _ => None
  | Signed p s =>
      if String.eqb s (hmac secret p)
      then if (exp p <=? now)%Z then None else Some p
      else None
  end.
End Hmac.

End Token.

(** ** What both servers share: configuration, requests and responses *)

Module Http.
Import Store.

(** The process environment and the two libraries the handlers call.
    The secret and the token lifetime are taken as set, so that
    [jwt.sign] does not throw. *)
Record Env := mkEnv {
  schema : Schema;
  bcrypt_hash : string -> string;               (* [bcrypt.hash(p, 10)] *)
  bcrypt_compare : string -> string -> bool;    (* [bcrypt.compare(p, h)] *)
  hmac : string -> Token.Payload -> string;
  JWT_SECRET : string;
  JWT_EXPIRES_IN : Z;
  NODE_ENV : option string
}.

(** [await bcrypt.compare(password, user.password)]: the promise rejects
    when [password] is not a string. *)
Definition compare_password (env : Env) (password : option string)
    (hash : string) : Result bool :=
  match password with
  | Some p => Ok (bcrypt_compare env p hash)
  | None => Threw (IllegalArguments "Illegal arguments: undefined, string")
  end.

(** [req.user]: [role] is [None] when the object has no such property. *)
Record Identity := mkIdentity {
  ident_id : nat;
  ident_name : string;
  ident_email : string;
  ident_role : option string
}.

(** A user as a response shows it ([attributes: [...]]). *)
Record UserView := mkUserView {
  uv_id : nat;
  uv_name : string;
  uv_email : string;
  uv_role : option string
}.

Inductive Json :=
  | JError (error : string)
  | JMessage (message : string)
  | JAuth (message : string) (token : Token.Jwt) (user : UserView)
  | JMessageUser (message : string) (user : UserView)
  | JUser (user : option UserView)
  | JUsers (all : list UserView)
  | JProject (p : option Project)
  | JProjectDetail (p : Project) (manager : option UserView)
                   (children : list (Task * option UserView))
  | JProjects (all : list (Project * option UserView))
  | JTask (t : option Task)
  | JTasks (all : list (Task * option UserView))
  | JHealth (status env : string)
  | JNoRoute.

(** How a handler ends: with the response it wrote, or with the error of
    a model call that nothing caught. *)
Inductive Outcome :=
  | Responded (status : nat) (body : Json)
  | Unhandled (e : Error).

Record RegisterBody := mkRegisterBody {
  rb_name : string;
  rb_email : string;
  rb_password : string;
  rb_role : option string
}.

(** The body of a login: [password] is [None] when the body has no
    string under that key. *)
Record LoginBody := mkLoginBody {
  lb_email : string;
  lb_password : option string
}.

Record ProjectBody := mkProjectBody {
  pb_name : string;
  pb_description : option string;
  pb_status : option string
}.

Record TaskBody := mkTaskBody {
  tb_title : string;
  tb_description : option string;
  tb_assignedUserId : option nat;
  tb_priority : option string
}.

Inductive Route :=
  | PostRegister (b : RegisterBody)
  | PostLogin (b : LoginBody)
  | PostLogout
  | GetProfile
  | GetUsers
  | GetProjects
  | GetProject (id : nat)
  | PostProjects (b : ProjectBody)
  | PutProject (id : nat) (v : ProjectPatch)
  | DeleteProject (id : nat)
  | GetProjectTasks (id : nat)
  | PostProjectTasks (id : nat) (b : TaskBody)
  | PutTask (id : nat) (v : TaskPatch)
  | DeleteTask (id : nat)
  | GetHealth.

(** The operation categories the role policy is stated over. *)
Inductive Operation :=
  | ReadOwnProfile | ListProjects | ReadProject | ListTasks
  | CreateProject | UpdateProject | CreateTask | DeleteTaskOp
  | DeleteProjectOp | ListAllUsers
  | UpdateTask.

Definition operation_of (r : Route) : option Operation :=
  match r with
  | GetProfile => Some ReadOwnProfile
  | GetUsers => Some ListAllUsers
  | GetProjects => Some ListProjects
  | GetProject _ => Some ReadProject
  | PostProjects _ => Some CreateProject
  | PutProject _ _ => Some UpdateProject
  | DeleteProject _ => Some DeleteProjectOp
  | GetProjectTasks _ => Some ListTasks
  | PostProjectTasks _ _ => Some CreateTask
  | PutTask _ _ => Some UpdateTask
  | DeleteTask _ => Some DeleteTaskOp
  | PostRegister _ | PostLogin _ | PostLogout | GetHealth => None
  end.

(** What a middleware does with a request: pass it on, or answer. *)
Inductive Step (R : Type) :=
  | Next (req : R)
  | Reply (status : nat) (body : Json).
Arguments Next {R} req.
Arguments Reply {R} status body.

(** Express runs the middlewares of a route in the order they are listed. *)
Fixpoint run_chain {R : Type} (chain : list (R -> Step R)) (req : R) : Step R :=
  match chain with
  | [] => Next req
  | m :: rest =>
      match m req with
      | Next req' => run_chain rest req'
      | Reply s b => Reply s b
      end
  end.

(** The [include]s of the list and detail queries. *)
Definition summary (u : User) : UserView :=
  mkUserView (user_id u) (user_name u) (user_email u) None.

Definition with_manager (db : Db) (p : Project) : Project * option UserView :=
  (p, summary <$> User_findByPk (project_managerId p) db).

Definition with_assignee (db : Db) (t : Task) : Task * option UserView :=
  (t, match task_assignedUserId t with
      | Some a => summary <$> User_findByPk a db
      | None => None
      end).

End Http.

(** ** [src/server.js]: the bearer-token server *)

Module Jwt.
Import Store Http.

(** The [Authorization] header, when the request has one. *)
Inductive Authorization :=
  | Bearer (token : Token.Jwt)     (* a value that starts with "Bearer " *)
  | OtherValue (value : string).

Record Req := mkReq {
  authorization : option Authorization;
  user : option Identity
}.

Definition identity_of (p : Token.Payload) : Identity :=
  mkIdentity (Token.id p) (Token.name p) (Token.email p) (Some (Token.role p)).

Section Server.
Variable env : Env.
Variable now : Z.

Definition authenticateJWT (req : Req) : Step Req :=
  match authorization req with
  | None | Some (OtherValue _) =>
      Reply 401 (JError "Missing or invalid token")
  | Some (Bearer token) =>
      match Token.verify (hmac env) token (JWT_SECRET env) now with
      | Some decoded =>
          Next (mkReq (authorization req) (Some (identity_of decoded)))
      | None => Reply 401 (JError "Invalid or expired token")
      end
  end.

Definition requireManager (req : Req) : Step Req :=
  match user req with
  | None => Reply 401 (JError "Unauthorized")
  | Some u =>
      match ident_role u with
      | Some r =>
          if String.eqb r "manager" || String.eqb r "admin" then Next req
          else Reply 403 (JError "Managers or admins only")
      | None => Reply 403 (JError "Managers or admins only")
      end
  end.

Definition requireAdmin (req : Req) : Step Req :=
  match user req with
  | None => Reply 401 (JError "Unauthorized")
  | Some u =>
      match ident_role u with
      | Some r =>
          if String.eqb r "admin" then Next req
          else Reply 403 (JError "Admins only")
      | None => Reply 403 (JError "Admins only")
      end
  end.

(** The role middlewares each route lists after [authenticateJWT]. *)
Definition guards (op : Operation) : list (Req -> Step Req) :=
  match op with
  | ReadOwnProfile => []                 (* GET /api/users/profile *)
  | ListAllUsers => [requireAdmin]       (* GET /api/users *)
  | ListProjects => []                   (* GET /api/projects *)
  | ReadProject => []                    (* GET /api/projects/:id *)
  | CreateProject => [requireManager]    (* POST /api/projects *)
  | UpdateProject => [requireManager]    (* PUT /api/projects/:id *)
  | DeleteProjectOp => [requireAdmin]    (* DELETE /api/projects/:id *)
  | ListTasks => []                      (* GET /api/projects/:id/tasks *)
  | CreateTask => [requireManager]       (* POST /api/projects/:id/tasks *)
  | UpdateTask => []                     (* PUT /api/tasks/:id *)
  | DeleteTaskOp => [requireManager]     (* DELETE /api/tasks/:id *)
  end.

(** The middlewares of a route, as [app.get]/[post]/[put]/[delete]
    registers them; the three authentication routes have none. *)
Definition middlewares (r : Route) : list (Req -> Step Req) :=
  match operation_of r with
  | Some op => authenticateJWT :: guards op
  | None => []
  end.

(** The role check alone, on a request [authenticateJWT] let through. *)
Definition authorize (op : Operation) (u : Identity) : Step Req :=
  run_chain (guards op) (mkReq None (Some u)).

Definition view (u : User) : UserView :=
  mkUserView (user_id u) (user_name u) (user_email u) (Some (user_role u)).

(** *** The handlers *)

Definition post_register (b : RegisterBody) (db : Db) : Outcome * Db :=
  let role := default "employee" (rb_role b) in
  match User_findOne (rb_email b) db with
  | Some _ => (Responded 400 (JError "Email already exists"), db)
  | None =>
      let hashed := bcrypt_hash env (rb_password b) in
      match User_create (schema env) (rb_name b) (rb_email b) hashed
                        (Some role) db with
      | Threw _ => (Responded 500 (JError "Registration failed"), db)
      | Ok (newUser, db') =>
          let token :=
            Token.sign (hmac env) (user_id newUser) (rb_name b) (rb_email b)
                       role (JWT_SECRET env) (JWT_EXPIRES_IN env) now in
          (Responded 201
             (JAuth "Registration successful" token
                    (mkUserView (user_id newUser) (rb_name b) (rb_email b)
                                (Some role))),
           db')
      end
  end.

Definition post_login (b : LoginBody) (db : Db) : Outcome * Db :=
  match User_findOne (lb_email b) db with
  | None => (Responded 401 (JError "Invalid credentials"), db)
  | Some u =>
      match compare_password env (lb_password b) (user_password u) with
      | Threw _ => (Responded 500 (JError "Login failed"), db)
      | Ok false => (Responded 401 (JError "Invalid credentials"), db)
      | Ok true =>
          let token :=
            Token.sign (hmac env) (user_id u) (user_name u) (user_email u)
                       (user_role u) (JWT_SECRET env) (JWT_EXPIRES_IN env) now in
          (Responded 200 (JAuth "Login successful" token (view u)), db)
      end
  end.

Definition post_logout (db : Db) : Outcome * Db :=
  (Responded 200 (JMessage "Logout successful (JWT stateless)"), db).

Definition get_profile (u : Identity) (db : Db) : Outcome * Db :=
  (Responded 200 (JUser (view <$> User_findByPk (ident_id u) db)), db).

Definition get_users (db : Db) : Outcome * Db :=
  (Responded 200 (JUsers (view <$> User_findAll db)), db).

Definition get_projects (db : Db) : Outcome * Db :=
  (Responded 200 (JProjects (with_manager db <$> Project_findAll db)), db).

Definition get_project (id : nat) (db : Db) : Outcome * Db :=
  match Project_findByPk id db with
  | None => (Responded 404 (JError "Project not found"), db)
  | Some p =>
      (Responded 200
         (JProjectDetail p (snd (with_manager db p))
                         (with_assignee db <$> Task_findAll_of (project_id p) db)),
       db)
  end.

Definition post_projects (u : Identity) (b : ProjectBody) (db : Db)
    : Outcome * Db :=
  let status := default "active" (pb_status b) in
  match Project_create (schema env) (pb_name b) (pb_description b) status
                       (ident_id u) db with
  | Threw e => (Unhandled e, db)
  | Ok (project, db') => (Responded 201 (JProject (Some project)), db')
  end.

Definition put_project (id : nat) (v : ProjectPatch) (db : Db)
    : Outcome * Db :=
  match Project_findByPk id db with
  | None => (Responded 404 (JError "Project not found"), db)
  | Some project =>
      match Project_instance_update (schema env) v project db with
      | Threw e => (Unhandled e, db)
      | Ok (project', db') => (Responded 200 (JProject (Some project')), db')
      end
  end.

Definition delete_project (id : nat) (db : Db) : Outcome * Db :=
  match Project_destroy (schema env) id db with
  | Threw e => (Unhandled e, db)
  | Ok (deleted, db') =>
      if Nat.eqb deleted 0
      then (Responded 404 (JError "Project not found"), db')
      else (Responded 200 (JMessage "Project deleted"), db')
  end.

Definition get_project_tasks (id : nat) (db : Db) : Outcome * Db :=
  (Responded 200 (JTasks (with_assignee db <$> Task_findAll_of id db)), db).

Definition post_project_tasks (id : nat) (b : TaskBody) (db : Db)
    : Outcome * Db :=
  let priority := default "medium" (tb_priority b) in
  match Task_create (schema env) (tb_title b) (tb_description b) id
                    (tb_assignedUserId b) priority "pending" db with
  | Threw e => (Unhandled e, db)
  | Ok (task, db') => (Responded 201 (JTask (Some task)), db')
  end.

Definition put_task (id : nat) (v : TaskPatch) (db : Db) : Outcome * Db :=
  match Task_findByPk id db with
  | None => (Responded 404 (JError "Task not found"), db)
  | Some task =>
      match Task_instance_update (schema env) v task db with
      | Threw e => (Unhandled e, db)
      | Ok (task', db') => (Responded 200 (JTask (Some task')), db')
      end
  end.

Definition delete_task (id : nat) (db : Db) : Outcome * Db :=
  let (deleted, db') := Task_destroy id db in
  if Nat.eqb deleted 0
  then (Responded 404 (JError "Task not found"), db')
  else (Responded 200 (JMessage "Task deleted"), db').

(** [req.user.id] in a handler: the identity [authenticateJWT] attached. *)
Definition with_user (req : Req) (k : Identity -> Db -> Outcome * Db)
    (db : Db) : Outcome * Db :=
  match user req with
  | Some u => k u db
  | None => (Unhandled (TypeError "req.user is undefined"), db)
  end.

(** The handler of a route, given the request its middlewares passed on. *)
Definition handler (r : Route) (req : Req) (db : Db) : Outcome * Db :=
  match r with
  | PostRegister b => post_register b db
  | PostLogin b => post_login b db
  | PostLogout => post_logout db
  | GetProfile => with_user req get_profile db
  | GetUsers => get_users db
  | GetProjects => get_projects db
  | GetProject id => get_project id db
  | PostProjects b => with_user req (fun u => post_projects u b) db
  | PutProject id v => put_project id v db
  | DeleteProject id => delete_project id db
  | GetProjectTasks id => get_project_tasks id db
  | PostProjectTasks id b => post_project_tasks id b db
  | PutTask id v => put_task id v db
  | DeleteTask id => delete_task id db
  | GetHealth => (Responded 404 JNoRoute, db)      (* not registered here *)
  end.

(** One request: the route's middlewares, then its handler. *)
Definition handle (r : Route) (auth : option Authorization) (db : Db)
    : Outcome * Db :=
  match run_chain (middlewares r) (mkReq auth None) with
  | Reply s b => (Responded s b, db)
  | Next req => handler r req db
  end.
End Server.

(** A request as it reaches the server: when, what, and with which
    [Authorization] header. *)
Record Arrival := mkArrival {
  at_time : Z;
  route : Route;
  header : option Authorization
}.

(** The server handling a sequence of requests, one after the other. *)
Fixpoint run (env : Env) (trace : list Arrival) (db : Db) : Db :=
  match trace with
  | [] => db
  | a :: rest =>
      run env rest (snd (handle env (at_time a) (route a) (header a) db))
  end.

End Jwt.

(** ** [src/unnamed/part_000]: the server on [express-session] *)

Module Session.
Import Store Http.

(** The three properties the login handler puts on [req.session]. *)
Record SessionUser := mkSessionUser {
  userId : nat;
  userName : string;
  userEmail : string
}.

(** An entry of the session store: the session's properties and the
    expiry of its cookie. *)
Record Stored := mkStored {
  data : SessionUser;
  expires : Z
}.

(** The state of the process: the database and the session store
    ([express-session]'s default in-memory store, keyed by session id). *)
Record World := mkWorld {
  db : Db;
  sessions : gmap nat Stored;
  sidSeq : nat                   (* the next session id to be generated *)
}.

Definition init : World := mkWorld Store.empty ∅ 0.

(** [cookie: { maxAge: 24 * 60 * 60 * 1000 }]. *)
Definition maxAge : Z := 24 * 60 * 60 * 1000.

(** [req.session] while a request is handled: the properties set on it
    ([None]: a session with none), or no session once it is destroyed. *)
Inductive ReqSession :=
  | Live (properties : option SessionUser)
  | Destroyed.

Record Req := mkReq {
  sessionID : nat;
  session : ReqSession;
  user : option Identity
}.

Section Server.
Variable env : Env.
Variable now : Z.

(** The [session(...)] middleware when a request arrives: the session the
    cookie names, if the store has it and it has not expired; otherwise a
    new, empty session under a new id (an expired entry is dropped). *)
Definition generate (w : World) : Req * World :=
  (mkReq (sidSeq w) (Live None) None,
   mkWorld (db w) (sessions w) (S (sidSeq w))).

Definition load (cookie : option nat) (w : World) : Req * World :=
  match cookie with
  | None => generate w
  | Some sid =>
      match sessions w !! sid with
      | None => generate w
      | Some st =>
          if (expires st <=? now)%Z
          then generate (mkWorld (db w) (delete sid (sessions w)) (sidSeq w))
          else (mkReq sid (Live (Some (data st))) None, w)
      end
  end.

(** The same middleware when the response ends: a session with
    properties is written back with a renewed expiry, an empty one is
    not stored ([saveUninitialized: false]). *)
Definition commit (sid : nat) (s : ReqSession) (m : gmap nat Stored)
    : gmap nat Stored :=
  match s with
  | Destroyed => m
  | Live None => m
  | Live (Some su) => <[sid := mkStored su (now + maxAge)]> m
  end.

Definition requireAuth (req : Req) : Step Req :=
  match session req with
  | Live (Some su) =>
      if negb (Nat.eqb (userId su) 0)
      then Next (mkReq (sessionID req) (session req)
                       (Some (mkIdentity (userId su) (userName su)
                                         (userEmail su) None)))
      else Reply 401 (JError "Authentication required")
  | Live None | Destroyed => Reply 401 (JError "Authentication required")
  end.

(** No route lists a middleware after [requireAuth]. *)
Definition guards (op : Operation) : list (Req -> Step Req) := [].

Definition middlewares (r : Route) : list (Req -> Step Req) :=
  match operation_of r with
  | Some op => requireAuth :: guards op
  | None => []
  end.

Definition authorize (op : Operation) (u : Identity) : Step Req :=
  run_chain (guards op) (mkReq 0 (Live None) (Some u)).

(** *** The handlers *)

Definition post_register (b : RegisterBody) (d : Db) : Outcome * Db :=
  match User_findOne (rb_email b) d with
  | Some _ => (Responded 400 (JError "User with this email already exists"), d)
  | None =>
      let hashedPassword := bcrypt_hash env (rb_password b) in
      match User_create (schema env) (rb_name b) (rb_email b) hashedPassword
                        None d with
      | Threw _ => (Responded 500 (JError "Failed to register user"), d)
      | Ok (newUser, d') =>
          (Responded 201 (JMessageUser "User registered" (summary newUser)), d')
      end
  end.

Definition post_login (b : LoginBody) (req : Req) (d : Db)
    : Outcome * ReqSession :=
  match User_findOne (lb_email b) d with
  | None => (Responded 401 (JError "Invalid email or password"), session req)
  | Some u =>
      match compare_password env (lb_password b) (user_password u) with
      | Threw _ => (Responded 500 (JError "Failed to login"), session req)
      | Ok false =>
          (Responded 401 (JError "Invalid email or password"), session req)
      | Ok true =>
          (Responded 200 (JMessageUser "Login successful" (summary u)),
           Live (Some (mkSessionUser (user_id u) (user_name u) (user_email u))))
      end
  end.

(** [req.session.destroy(cb)]: the entry leaves the store, then [cb]
    answers (the in-memory store reports no error). *)
Definition post_logout (req : Req) (m : gmap nat Stored)
    : Outcome * ReqSession * gmap nat Stored :=
  (Responded 200 (JMessage "Logout successful"), Destroyed,
   delete (sessionID req) m).

Definition get_health (d : Db) : Outcome * Db :=
  (Responded 200 (JHealth "API running"
                             (default "development" (NODE_ENV env))), d).

Definition get_profile (u : Identity) (d : Db) : Outcome * Db :=
  match User_findByPk (ident_id u) d with
  | None => (Responded 404 (JError "User not found"), d)
  | Some row => (Responded 200 (JUser (Some (summary row))), d)
  end.

Definition get_users (d : Db) : Outcome * Db :=
  (Responded 200 (JUsers (summary <$> User_findAll d)), d).

Definition get_projects (d : Db) : Outcome * Db :=
  (Responded 200 (JProjects (with_manager d <$> Project_findAll d)), d).

Definition get_project (id : nat) (d : Db) : Outcome * Db :=
  match Project_findByPk id d with
  | None => (Responded 404 (JError "Project not found"), d)
  | Some p =>
      (Responded 200
         (JProjectDetail p (snd (with_manager d p))
                         (with_assignee d <$> Task_findAll_of (project_id p) d)),
       d)
  end.

Definition post_projects (u : Identity) (b : ProjectBody) (d : Db)
    : Outcome * Db :=
  let status := default "active" (pb_status b) in
  match Project_create (schema env) (pb_name b) (pb_description b) status
                       (ident_id u) d with
  | Threw e => (Unhandled e, d)
  | Ok (newProject, d') => (Responded 201 (JProject (Some newProject)), d')
  end.

(** The handler passes on [name], [description] and [status] only. *)
Definition project_values (v : ProjectPatch) : ProjectPatch :=
  mkProjectPatch (pp_name v) (pp_description v) (pp_status v) None.

Definition put_project (id : nat) (v : ProjectPatch) (d : Db)
    : Outcome * Db :=
  match Project_update (schema env) (project_values v) id d with
  | Threw e => (Unhandled e, d)
  | Ok (updatedRows, d') =>
      if Nat.eqb updatedRows 0
      then (Responded 404 (JError "Project not found"), d')
      else (Responded 200 (JProject (Project_findByPk id d')), d')
  end.

Definition delete_project (id : nat) (d : Db) : Outcome * Db :=
  match Project_destroy (schema env) id d with
  | Threw e => (Unhandled e, d)
  | Ok (deletedRows, d') =>
      if Nat.eqb deletedRows 0
      then (Responded 404 (JError "Project not found"), d')
      else (Responded 200 (JMessage "Project deleted successfully"), d')
  end.

Definition get_project_tasks (id : nat) (d : Db) : Outcome * Db :=
  (Responded 200 (JTasks (with_assignee d <$> Task_findAll_of id d)), d).

Definition post_project_tasks (id : nat) (b : TaskBody) (d : Db)
    : Outcome * Db :=
  let priority := default "medium" (tb_priority b) in
  match Task_create (schema env) (tb_title b) (tb_description b) id
                    (tb_assignedUserId b) priority "pending" d with
  | Threw e => (Unhandled e, d)
  | Ok (newTask, d') => (Responded 201 (JTask (Some newTask)), d')
  end.

(** The handler passes on [title], [description], [status] and
    [priority] only. *)
Definition task_values (v : TaskPatch) : TaskPatch :=
  mkTaskPatch (tp_title v) (tp_description v) (tp_status v) (tp_priority v)
              None None.

Definition put_task (id : nat) (v : TaskPatch) (d : Db) : Outcome * Db :=
  match Task_update (schema env) (task_values v) id d with
  | Threw e => (Unhandled e, d)
  | Ok (updatedRows, d') =>
      if Nat.eqb updatedRows 0
      then (Responded 404 (JError "Task not found"), d')
      else (Responded 200 (JTask (Task_findByPk id d')), d')
  end.

Definition delete_task (id : nat) (d : Db) : Outcome * Db :=
  let (deletedRows, d') := Task_destroy id d in
  if Nat.eqb deletedRows 0
  then (Responded 404 (JError "Task not found"), d')
  else (Responded 200 (JMessage "Task deleted successfully"), d').

(** [req.user.id] in a handler: the identity [requireAuth] attached. *)
Definition with_user (req : Req) (k : Identity -> Db -> Outcome * Db)
    (d : Db) : Outcome * Db :=
  match user req with
  | Some u => k u d
  | None => (Unhandled (TypeError "req.user is undefined"), d)
  end.

(** The handler of a route on the request its middlewares passed on:
    the outcome, [req.session] afterwards, and the new state. *)
Definition handler (r : Route) (req : Req) (w : World)
    : Outcome * ReqSession * World :=
  let on_db (res : Outcome * Db) :=
    (fst res, session req, mkWorld (snd res) (sessions w) (sidSeq w)) in
  match r with
  | PostRegister b => on_db (post_register b (db w))
  | PostLogin b =>
      let (o, s) := post_login b req (db w) in (o, s, w)
  | PostLogout =>
      let '(o, s, m) := post_logout req (sessions w) in
      (o, s, mkWorld (db w) m (sidSeq w))
  | GetHealth => on_db (get_health (db w))
  | GetProfile => on_db (with_user req get_profile (db w))
  | GetUsers => on_db (get_users (db w))
  | GetProjects => on_db (get_projects (db w))
  | GetProject id => on_db (get_project id (db w))
  | PostProjects b => on_db (with_user req (fun u => post_projects u b) (db w))
  | PutProject id v => on_db (put_project id v (db w))
  | DeleteProject id => on_db (delete_project id (db w))
  | GetProjectTasks id => on_db (get_project_tasks id (db w))
  | PostProjectTasks id b => on_db (post_project_tasks id b (db w))
  | PutTask id v => on_db (put_task id v (db w))
  | DeleteTask id => on_db (delete_task id (db w))
  end.

(** When the response ends the session middleware writes the session
    back.  What follows an error that left the handler uncaught is not
    the handlers' doing and depends on the Express and Node versions, which
    the sources do not fix; the model takes the case where no response is
    written and the process goes on, so that the write-back is not reached
    and the state is the one the handler left. *)
Definition finish (o : Outcome) (sid : nat) (s : ReqSession) (w : World)
    : World :=
  match o with
  | Responded _ _ => mkWorld (db w) (commit sid s (sessions w)) (sidSeq w)
  | Unhandled _ => w
  end.

(** One request: the session middleware, the route's middlewares, its
    handler, and the session written back. *)
Definition handle (r : Route) (cookie : option nat) (w : World)
    : Outcome * World :=
  let (req, w1) := load cookie w in
  match run_chain (middlewares r) req with
  | Reply s b =>
      (Responded s b, finish (Responded s b) (sessionID req) (session req) w1)
  | Next req' =>
      let '(o, s, w2) := handler r req' w1 in
      (o, finish o (sessionID req') s w2)
  end.

(** The session id the response's cookie carries. *)
Definition cookie_of (cookie : option nat) (w : World) : nat :=
  sessionID (fst (load cookie w)).

(** [resolve]: what [requireAuth] makes of a presented session id. *)
Definition resolve (cookie : option nat) (w : World) : Step Req :=
  requireAuth (fst (load cookie w)).
End Server.

(** A request as it reaches the server: when, what, and with which
    session cookie. *)
Record Arrival := mkArrival {
  at_time : Z;
  route : Route;
  cookie : option nat
}.

(** The server handling a sequence of requests, one after the other. *)
Fixpoint run (env : Env) (trace : list Arrival) (w : World) : World :=
  match trace with
  | [] => w
  | a :: rest =>
      run env rest (snd (handle env (at_time a) (route a) (cookie a) w))
  end.

(** The answers along the way. *)
Fixpoint answers (env : Env) (trace : list Arrival) (w : World)
    : list Outcome :=
  match trace with
  | [] => []
  | a :: rest =>
      let (o, w') := handle env (at_time a) (route a) (cookie a) w in
      o :: answers env rest w'
  end.

End Session.

(** ** The role policy as the specification words it *)

Module Policy.
Import Http.

Inductive Role := employee | manager | admin.

Definition role_name (r : Role) : string :=
  match r with
  | employee => "employee"
  | manager => "manager"
  | admin => "admin"
  end.

(** The total order employee < manager < admin. *)
Definition rank (r : Role) : nat :=
  match r with
  | employee => 0
  | manager => 1
  | admin => 2
  end.

Definition below (r m : Role) : bool := Nat.ltb (rank r) (rank m).

(** The policy table: the minimum role of each operation category. *)
Definition minRole (op : Operation) : Role :=
  match op with
  | ReadOwnProfile | ListProjects | ReadProject | ListTasks => employee
  | CreateProject | UpdateProject | CreateTask | DeleteTaskOp => manager
  | DeleteProjectOp | ListAllUsers => admin
  | UpdateTask => employee
  end.

(** The two verdicts of a check. *)
Definition forbidden {R : Type} (s : Step R) : bool :=
  match s with
  | Reply 403 _ => true
  | _ => false
  end.

Definition allowed {R : Type} (s : Step R) : bool :=
  match s with
  | Next _ => true
  | Reply _ _ => false
  end.

End Policy.

(** ** Two concrete configurations *)

Module Sample.
Import Store Http.

Definition one_of (l : list string) (s : string) : bool :=
  existsb (String.eqb s) l.

(** Modelled from the spec: a store that enforces the data model of
    section 3 (role and priority are closed enumerations, the email is
    unique, foreign keys are checked when a row is written); the model
    definitions themselves are not among the sources. *)
Definition closedSchema : Schema :=
  mkSchema "employee"
           (one_of ["employee"; "manager"; "admin"])
           (one_of ["low"; "medium"; "high"])
           true true.


Definition salted (p : string) : string := "$2a$10$" ++ p.

Definition digest (secret : string) (p : Token.Payload) : string :=
  secret ++ "." ++ Token.email p ++ "." ++ Token.role p.

Definition env_with (sch : Schema) : Env :=
  mkEnv sch salted (fun p h => String.eqb (salted p) h) digest
        "secret" 3600 None.

Definition closedEnv : Env := env_with closedSchema.

End Sample.

(** ** Notions the statements below are phrased with *)

Import Store Http Policy.

(** What one request can do to the session store: nothing, drop the
    entry of its own session, or write it. *)
Definition touches (sid : nat) (m m' : gmap nat Session.Stored) : Prop :=
  m' = m \/ m' = delete sid m \/ exists st, m' = <[sid := st]> m.

(** A session id that was handed out and has no entry. *)
Definition gone (sid : nat) (w : Session.World) : Prop :=
  Session.sessions w !! sid = None /\ sid < Session.sidSeq w.

(** The ids of the store's entries are ids the server handed out. *)
Definition issued (w : Session.World) : Prop :=
  forall sid st, Session.sessions w !! sid = Some st -> sid < Session.sidSeq w.


(** Every field a patch leaves out has the value it had. *)
Definition retains (v : TaskPatch) (old new : Task) : Prop :=
  task_id new = task_id old
  /\ (tp_title v = None -> task_title new = task_title old)
  /\ (tp_description v = None -> task_description new = task_description old)
  /\ (tp_status v = None -> task_status new = task_status old)
  /\ (tp_priority v = None -> task_priority new = task_priority old)
  /\ (tp_assignedUserId v = None ->
      task_assignedUserId new = task_assignedUserId old)
  /\ (tp_projectId v = None -> task_projectId new = task_projectId old).

(** A run of registration requests against one register handler. *)
Fixpoint register_all {X : Type} (post : X -> Db -> Outcome * Db)
    (xs : list X) (db : Db) : list Outcome * Db :=
  match xs with
  | [] => ([], db)
  | x :: rest =>
      let (o, db1) := post x db in
      let (os, db2) := register_all post rest db1 in
      (o :: os, db2)
  end.

(** The identifier a 201 answer of a register handler reports. *)
Definition registered_id (o : Outcome) : option nat :=
  match o with
  | Responded 201 (JAuth _ _ u) => Some (uv_id u)
  | Responded 201 (JMessageUser _ u) => Some (uv_id u)
  | _ => None
  end.

(** The database with one more user row, under the next identifier. *)
Definition add_user (u : User) (db : Db) : Db :=
  mkDb (users db ++ [u]) (projects db) (tasks db)
       (S (userSeq db)) (projectSeq db) (taskSeq db).

(** Identifiers of existing rows lie below the next one to be handed out
    and do not repeat. *)
Definition users_wf (db : Db) : Prop :=
  Forall (fun u => user_id u < userSeq db) (users db)
  /\ NoDup (user_id <$> users db).





(** The rows of a table carry pairwise distinct identifiers, all below
    the next one the table hands out. *)
Definition fresh_ids {A : Type} (key : A -> nat) (next : nat) (rows : list A)
    : Prop :=
  Forall (fun r => key r < next) rows /\ NoDup (key <$> rows).

(** The shape every table of the store is meant to have: no email twice,
    and in each table identifiers as [fresh_ids] says. *)
Definition store_wf (db : Db) : Prop :=
  NoDup (user_email <$> users db)
  /\ fresh_ids user_id (userSeq db) (users db)
  /\ fresh_ids project_id (projectSeq db) (projects db)
  /\ fresh_ids task_id (taskSeq db) (tasks db).

(** Every field a project patch leaves out has the value it had. *)
Definition retains_project (v : ProjectPatch) (old new : Project) : Prop :=
  project_id new = project_id old
  /\ (pp_name v = None -> project_name new = project_name old)
  /\ (pp_description v = None ->
      project_description new = project_description old)
  /\ (pp_status v = None -> project_status new = project_status old)
  /\ (pp_managerId v = None -> project_managerId new = project_managerId old).

(** The ways a presented cookie names no usable session at time [now]:
    there is no cookie, the store has no entry under it, or the entry has
    expired. *)
Definition no_live_session (now : Z) (c : option nat) (w : Session.World)
    : Prop :=
  match c with
  | None => True
  | Some sid =>
      match Session.sessions w !! sid with
      | None => True
      | Some st => (Session.expires st <= now)%Z
      end
  end.

(** The ways an [Authorization] header fails [authenticateJWT] at [now]. *)
Definition no_valid_token (env : Env) (now : Z)
    (a : option Jwt.Authorization) : Prop :=
  match a with
  | Some (Jwt.Bearer token) =>
      Token.verify (hmac env) token (JWT_SECRET env) now = None
  | Some (Jwt.OtherValue _) | None => True
  end.

(** * Properties *)

(** ** Authorization (the role middlewares against the policy table) *)

(** A role that is neither "manager" nor "admin" stops at both role
    middlewares, whatever the string is. *)
Lemma other_roles_stop (s : string) (req : Jwt.Req) i n e :
  s <> "manager" -> s <> "admin" ->
  Jwt.user req = Some (mkIdentity i n e (Some s)) ->
  Jwt.requireManager req = Reply 403 (JError "Managers or admins only")
  /\ Jwt.requireAdmin req = Reply 403 (JError "Admins only").
Proof.
  intros Hm Ha Hu. unfold Jwt.requireManager, Jwt.requireAdmin. rewrite Hu.
  simpl. destruct (String.eqb_spec s "manager"); [done|].
  destruct (String.eqb_spec s "admin"); done.
Qed.

(** What [authenticateJWT] lets through carries the token's claims. *)
Lemma authenticateJWT_sets_user env now req req' :
  Jwt.authenticateJWT env now req = Next req' ->
  exists token p,
    Jwt.authorization req = Some (Jwt.Bearer token)
    /\ Token.verify (hmac env) token (JWT_SECRET env) now = Some p
    /\ Jwt.user req' = Some (Jwt.identity_of p).
Proof.
  unfold Jwt.authenticateJWT. intros H.
  destruct (Jwt.authorization req) as [[token|v]|] eqn:Ha; try discriminate.
  destruct (Token.verify _ token _ now) as [p|] eqn:Hv; try discriminate.
  exists token, p. by inversion H.
Qed.

Lemma token_chain_verdict env now (rt : Route) (op : Operation) token p :
  operation_of rt = Some op ->
  Token.verify (hmac env) token (JWT_SECRET env) now = Some p ->
  run_chain (Jwt.middlewares env now rt)
            (Jwt.mkReq (Some (Jwt.Bearer token)) None)
  = run_chain (Jwt.guards op)
              (Jwt.mkReq (Some (Jwt.Bearer token)) (Some (Jwt.identity_of p))).
Proof.
  intros Hop Hv. unfold Jwt.middlewares. rewrite Hop. simpl.
  unfold Jwt.authenticateJWT. simpl. by rewrite Hv.
Qed.

(** C1 (as amended).  In the bearer-token server the role check of every
    operation category answers 403 exactly when the identity's role lies
    strictly below the category's minimum role in employee < manager <
    admin, and lets the request through otherwise; so does the whole
    middleware chain of a route of that category on a request whose token
    verifies.  A role outside the three names is treated as the lowest.
    In the session server no role check is mounted: a request with a
    logged-in session passes the chain of every route, whatever the role
    of its user. *)
Theorem C1_guard_follows_policy_in_token_server :
  forall (op : Operation) (r : Role) (id : nat) (name email : string),
    let u := mkIdentity id name email (Some (role_name r)) in
    forbidden (Jwt.authorize op u) = below r (minRole op)
    /\ allowed (Jwt.authorize op u) = negb (below r (minRole op))
    /\ (forall env now rt token p,
          operation_of rt = Some op ->
          Token.verify (hmac env) token (JWT_SECRET env) now = Some p ->
          Token.role p = role_name r ->
          let verdict :=
            run_chain (Jwt.middlewares env now rt)
                      (Jwt.mkReq (Some (Jwt.Bearer token)) None) in
          forbidden verdict = below r (minRole op)
          /\ allowed verdict = negb (below r (minRole op)))
    /\ (forall (s : string) i n e,
          s <> "manager" -> s <> "admin" ->
          forbidden (Jwt.authorize op (mkIdentity i n e (Some s)))
          = below employee (minRole op)
          /\ allowed (Jwt.authorize op (mkIdentity i n e (Some s)))
             = negb (below employee (minRole op)))
    /\ (forall rt sid su,
          operation_of rt = Some op ->
          Session.userId su <> 0 ->
          allowed (run_chain (Session.middlewares rt)
                             (Session.mkReq sid (Session.Live (Some su)) None))
          = true)
    /\ (forall v : Identity, allowed (Session.authorize op v) = true).
Proof.
  intros op r id name email u.
  assert (Hf : forall a i n e,
             forbidden (run_chain (Jwt.guards op)
                          (Jwt.mkReq a (Some (mkIdentity i n e (Some (role_name r))))))
             = below r (minRole op)
             /\ allowed (run_chain (Jwt.guards op)
                          (Jwt.mkReq a (Some (mkIdentity i n e (Some (role_name r))))))
                = negb (below r (minRole op))).
  { intros a i n e. destruct op, r; split; reflexivity. }
  split; [apply Hf|]. split; [apply Hf|]. split; [|split; [|split]].
  - intros env now rt token p Hop Hv Hr verdict. subst verdict.
    rewrite (token_chain_verdict env now rt op token p Hop Hv).
    unfold Jwt.identity_of. rewrite Hr. apply Hf.
  - intros s i n e Hm Ha. unfold Jwt.authorize.
    destruct (other_roles_stop s (Jwt.mkReq None (Some (mkIdentity i n e (Some s))))
                i n e Hm Ha eq_refl) as [HM HA].
    destruct op; simpl; rewrite ?HM, ?HA; by split.
  - intros rt sid su Hop Hid. unfold Session.middlewares. rewrite Hop.
    simpl. unfold Session.requireAuth. simpl.
    destruct (Nat.eqb_spec (Session.userId su) 0) as [E|E]; [done|].
    by destruct op.
  - intros v. by destruct op.
Qed.

(** C1 at a concrete request: an employee's token on the route that
    deletes a project. *)
Lemma C1_witness :
  forbidden
    (run_chain
       (Jwt.middlewares Sample.closedEnv 20 (DeleteProject 1))
       (Jwt.mkReq
          (Some (Jwt.Bearer
                   (Token.sign Sample.digest 1 "bob" "bob@x.com" "employee"
                               "secret" 3600 10)))
          None))
  = true.
Proof.
  exact (proj1 (proj1 (proj2 (proj2
           (C1_guard_follows_policy_in_token_server DeleteProjectOp employee
              1 "bob" "bob@x.com")))
           Sample.closedEnv 20%Z (DeleteProject 1)
           (Token.sign Sample.digest 1 "bob" "bob@x.com" "employee"
                       "secret" 3600 10)
           (Token.mkPayload 1 "bob" "bob@x.com" "employee" 10 3610)
           eq_refl eq_refl eq_refl)).
Defined.

(** C1, refuted as stated: in the session server a freshly registered
    user (role employee, the lowest) logs in, creates a project and
    deletes it; the deletion is answered 200, although the policy table
    asks for admin. *)
Lemma C1_session_employee_deletes_project :
  let bob := mkRegisterBody "bob" "bob@x.com" "pw" (Some "employee") in
  let trace :=
    [ Session.mkArrival 10 (PostRegister bob) None;
      Session.mkArrival 20 (PostLogin (mkLoginBody "bob@x.com" (Some "pw"))) None;
      Session.mkArrival 30 (PostProjects (mkProjectBody "Launch" None None)) (Some 1);
      Session.mkArrival 40 (DeleteProject 1) (Some 1) ] in
  last (Session.answers Sample.closedEnv trace Session.init)
    = Some (Responded 200 (JMessage "Project deleted successfully"))
  /\ user_role <$> users (Session.db (Session.run Sample.closedEnv trace Session.init))
     = ["employee"]
  /\ below employee (minRole DeleteProjectOp) = true.
Proof. vm_compute. repeat split. Qed.

(** ** The session middleware *)

Lemma load_db now (c : option nat) (w : Session.World) :
  Session.db (snd (Session.load now c w)) = Session.db w.
Proof.
  unfold Session.load, Session.generate.
  destruct c as [sid|]; [|done].
  destruct (Session.sessions w !! sid) as [st|]; [|done].
  by destruct (Session.expires st <=? now)%Z.
Qed.

(** A session the store holds and that has not expired is the one the
    request gets. *)
Lemma load_live now sid st (w : Session.World) :
  Session.sessions w !! sid = Some st ->
  (now < Session.expires st)%Z ->
  Session.load now (Some sid) w
  = (Session.mkReq sid (Session.Live (Some (Session.data st))) None, w).
Proof.
  intros Hs Hlt. unfold Session.load. rewrite Hs.
  destruct (Z.leb_spec (Session.expires st) now); [lia|done].
Qed.

(** The request of a login is always let through to its handler, and the
    store then holds the session under the request's id. *)
Lemma login_stores_session env now (c : option nat) (w : Session.World) b u :
  User_findOne (lb_email b) (Session.db w) = Some u ->
  compare_password env (lb_password b) (user_password u) = Ok true ->
  Session.handle env now (PostLogin b) c w
  = (Responded 200 (JMessageUser "Login successful" (summary u)),
     let w1 := snd (Session.load now c w) in
     Session.mkWorld (Session.db w)
       (<[Session.cookie_of now c w :=
            Session.mkStored
              (Session.mkSessionUser (user_id u) (user_name u) (user_email u))
              (now + Session.maxAge)]> (Session.sessions w1))
       (Session.sidSeq w1)).
Proof.
  intros Hu Hc. unfold Session.handle, Session.cookie_of.
  pose proof (load_db now c w) as Hdb.
  destruct (Session.load now c w) as [req w1] eqn:Hl. simpl in *.
  unfold Session.post_login. rewrite Hdb, Hu, Hc. simpl. by rewrite Hdb.
Qed.

(** C2 (as amended).  In the session server a successful login stores,
    under the session id of the request, exactly the three properties
    userId, userName and userEmail of the user (with an expiry 24 hours
    ahead) and no role; the identity [requireAuth] then builds from that
    session carries the user's id, name and email, and its role is
    undefined. *)
Theorem C2_session_holds_three_fields_and_no_role :
  forall env now (c : option nat) (w : Session.World) b u,
    User_findOne (lb_email b) (Session.db w) = Some u ->
    compare_password env (lb_password b) (user_password u) = Ok true ->
    let sid := Session.cookie_of now c w in
    let w' := snd (Session.handle env now (PostLogin b) c w) in
    let su := Session.mkSessionUser (user_id u) (user_name u) (user_email u) in
    Session.sessions w' !! sid = Some (Session.mkStored su (now + Session.maxAge))
    /\ (forall later,
          (later < now + Session.maxAge)%Z ->
          user_id u <> 0 ->
          Session.resolve later (Some sid) w'
          = Next (Session.mkReq sid (Session.Live (Some su))
                    (Some (mkIdentity (user_id u) (user_name u) (user_email u)
                                      None)))).
Proof.
  intros env now c w b u Hu Hc sid w' su.
  subst w'. rewrite (login_stores_session env now c w b u Hu Hc). simpl.
  fold sid. fold su.
  assert (Hs : (<[sid := Session.mkStored su (now + Session.maxAge)]>
                  (Session.sessions (snd (Session.load now c w)))) !! sid
               = Some (Session.mkStored su (now + Session.maxAge)))
    by apply lookup_insert_eq.
  split; [exact Hs|].
  intros later Hlt Hid. unfold Session.resolve.
  erewrite load_live; [|exact Hs|simpl; lia]. simpl.
  unfold Session.requireAuth. simpl.
  destruct (Nat.eqb_spec (user_id u) 0); [done|reflexivity].
Qed.

(** C2, refuted as stated: after registering and logging in, the entry of
    the session store has no role and the identity resolved from it has
    none either, although the user's row has one. *)
Lemma C2_session_identity_has_no_role :
  Session.sessions
    (Session.run Sample.closedEnv
       [ Session.mkArrival 10 (PostRegister (mkRegisterBody "bob" "bob@x.com" "pw" None)) None;
         Session.mkArrival 20 (PostLogin (mkLoginBody "bob@x.com" (Some "pw"))) None ]
       Session.init) !! 1
  = Some (Session.mkStored (Session.mkSessionUser 1 "bob" "bob@x.com") 86400020)
  /\ Session.resolve 30 (Some 1)
       (Session.run Sample.closedEnv
          [ Session.mkArrival 10 (PostRegister (mkRegisterBody "bob" "bob@x.com" "pw" None)) None;
            Session.mkArrival 20 (PostLogin (mkLoginBody "bob@x.com" (Some "pw"))) None ]
          Session.init)
     = Next (Session.mkReq 1
               (Session.Live (Some (Session.mkSessionUser 1 "bob" "bob@x.com")))
               (Some (mkIdentity 1 "bob" "bob@x.com" None)))
  /\ user_role <$> users (Session.db
       (Session.run Sample.closedEnv
          [ Session.mkArrival 10 (PostRegister (mkRegisterBody "bob" "bob@x.com" "pw" None)) None;
            Session.mkArrival 20 (PostLogin (mkLoginBody "bob@x.com" (Some "pw"))) None ]
          Session.init))
     = ["employee"].
Proof. vm_compute. repeat split. Qed.

(** C2 at a concrete login: bob, registered, logs in at time 20. *)
Lemma C2_witness :
  Session.sessions
    (snd (Session.handle Sample.closedEnv 20
            (PostLogin (mkLoginBody "bob@x.com" (Some "pw"))) None
            (Session.mkWorld
               (mkDb [mkUser 1 "bob" "bob@x.com" (Sample.salted "pw") "employee"]
                     [] [] 2 1 1) ∅ 1))) !! 1
  = Some (Session.mkStored (Session.mkSessionUser 1 "bob" "bob@x.com")
                           (20 + Session.maxAge)).
Proof.
  exact (proj1 (C2_session_holds_three_fields_and_no_role
                  Sample.closedEnv 20 None
                  (Session.mkWorld
                     (mkDb [mkUser 1 "bob" "bob@x.com" (Sample.salted "pw") "employee"]
                           [] [] 2 1 1) ∅ 1)
                  (mkLoginBody "bob@x.com" (Some "pw"))
                  (mkUser 1 "bob" "bob@x.com" (Sample.salted "pw") "employee")
                  eq_refl eq_refl)).
Defined.

(** ** Registration in the bearer-token server *)

Lemma find_none_existsb {A : Type} (f : A -> bool) (l : list A) :
  find f l = None -> existsb f l = false.
Proof.
  induction l as [|x l IH]; simpl; [done|].
  destruct (f x); [discriminate|exact IH].
Qed.

(** The store takes a row whose email is new and whose role it accepts. *)
Lemma User_create_fresh sch name email password role db :
  User_findOne email db = None ->
  roleAccepted sch (default (roleDefault sch) role) = true ->
  User_create sch name email password role db
  = Ok (mkUser (userSeq db) name email password (default (roleDefault sch) role),
        mkDb (users db
                ++ [mkUser (userSeq db) name email password
                           (default (roleDefault sch) role)])
             (projects db) (tasks db)
             (S (userSeq db)) (projectSeq db) (taskSeq db)).
Proof.
  intros Hf Hr. unfold User_create. simpl. rewrite Hr. simpl.
  unfold User_findOne in Hf. rewrite (find_none_existsb _ _ Hf).
  by rewrite andb_false_r.
Qed.

Lemma sign_verifies env id name email role now :
  (0 < JWT_EXPIRES_IN env)%Z ->
  Token.verify (hmac env)
    (Token.sign (hmac env) id name email role (JWT_SECRET env)
                (JWT_EXPIRES_IN env) now)
    (JWT_SECRET env) now
  = Some (Token.mkPayload id name email role now (now + JWT_EXPIRES_IN env)).
Proof.
  intros Hpos. unfold Token.verify, Token.sign. rewrite String.eqb_refl. simpl.
  destruct (Z.leb_spec (now + JWT_EXPIRES_IN env) now); [lia|done].
Qed.

(** C3.  In the bearer-token server [POST /api/register] runs behind no
    middleware, and the role of the new user is the [role] of the request
    body, "employee" when the body has none.  So a request without any
    credential whose body asks for "admin" (a role the store accepts)
    creates a user with role admin and is answered 201 with a token that
    verifies under the server's secret and carries that role: a token
    that passes the admin-only check. *)
Theorem C3_register_takes_role_from_body :
  forall env now db name email password (asked : option string),
    let role := default "employee" asked in
    let b := mkRegisterBody name email password asked in
    let p := Token.mkPayload (userSeq db) name email role now
                             (now + JWT_EXPIRES_IN env) in
    User_findOne email db = None ->
    roleAccepted (schema env) role = true ->
    (0 < JWT_EXPIRES_IN env)%Z ->
    Jwt.middlewares env now (PostRegister b) = []
    /\ exists db',
        Jwt.handle env now (PostRegister b) None db
        = (Responded 201
             (JAuth "Registration successful"
                    (Token.Signed p (hmac env (JWT_SECRET env) p))
                    (mkUserView (userSeq db) name email (Some role))),
           db')
        /\ users db'
           = (users db
                ++ [mkUser (userSeq db) name email (bcrypt_hash env password) role])%list
        /\ Token.verify (hmac env) (Token.Signed p (hmac env (JWT_SECRET env) p))
                        (JWT_SECRET env) now = Some p
        /\ (asked = Some "admin" ->
            Token.role p = "admin"
            /\ forall op, allowed (Jwt.authorize op (Jwt.identity_of p)) = true).
Proof.
  intros env now db name email password asked role b p Hf Hr Hpos.
  split; [reflexivity|].
  eexists. unfold Jwt.handle. simpl. unfold Jwt.post_register. simpl.
  rewrite Hf. fold role.
  rewrite (User_create_fresh (schema env) name email
             (bcrypt_hash env password) (Some role) db Hf Hr).
  simpl. split; [reflexivity|]. split; [reflexivity|]. split.
  - apply (sign_verifies env (userSeq db) name email role now Hpos).
  - intros ->. split; [reflexivity|]. intros op. by destruct op.
Qed.

(** C3 at a concrete request: an unauthenticated caller asks for admin. *)
Lemma C3_witness :
  exists db',
    Jwt.handle Sample.closedEnv 100
      (PostRegister (mkRegisterBody "eve" "eve@x.com" "pw" (Some "admin")))
      None Store.empty
    = (Responded 201
         (JAuth "Registration successful"
            (Token.Signed (Token.mkPayload 1 "eve" "eve@x.com" "admin" 100 3700)
                          "secret.eve@x.com.admin")
            (mkUserView 1 "eve" "eve@x.com" (Some "admin"))),
       db')
    /\ users db' = [mkUser 1 "eve" "eve@x.com" "$2a$10$pw" "admin"].
Proof.
  destruct (C3_register_takes_role_from_body Sample.closedEnv 100 Store.empty
              "eve" "eve@x.com" "pw" (Some "admin")
              eq_refl eq_refl eq_refl) as [_ [db' [H1 [H2 _]]]].
  exists db'. split; [exact H1|exact H2].
Defined.

(** ** Creating a task under a project that does not exist *)


(** The two servers have the same create-task handler. *)
Lemma post_project_tasks_same env id b db :
  Session.post_project_tasks env id b db = Jwt.post_project_tasks env id b db.
Proof.
  unfold Session.post_project_tasks, Jwt.post_project_tasks.
  by destruct (Task_create _ _ _ _ _ _ _ _) as [[t db']|e].
Qed.




(** ** Login: one answer for both causes of failure *)





(** A login without a password: the comparison is reached only when the
    email belongs to a user, and rejects there. *)
Lemma login_without_password env now (a : option Jwt.Authorization)
    (c : option nat) (w : Session.World) (email : string) :
  Jwt.handle env now (PostLogin (mkLoginBody email None)) a (Session.db w)
  = (match User_findOne email (Session.db w) with
     | Some _ => Responded 500 (JError "Login failed")
     | None => Responded 401 (JError "Invalid credentials")
     end, Session.db w)
  /\ fst (Session.handle env now (PostLogin (mkLoginBody email None)) c w)
     = match User_findOne email (Session.db w) with
       | Some _ => Responded 500 (JError "Failed to login")
       | None => Responded 401 (JError "Invalid email or password")
       end.
Proof.
  split.
  - unfold Jwt.handle. simpl. unfold Jwt.post_login. simpl.
    by destruct (User_findOne email (Session.db w)).
  - unfold Session.handle.
    pose proof (load_db now c w) as Hdb.
    destruct (Session.load now c w) as [req w1]. simpl in *.
    unfold Session.post_login. simpl. rewrite Hdb.
    by destruct (User_findOne email (Session.db w)).
Qed.

(** C5, where the code departs from it.  A login request whose body has
    no password is answered 401 when its email belongs to no user, and
    500 when its email belongs to a user: [bcrypt.compare] is reached only
    for an existing user, rejects on the missing password, and the
    handler's [catch] answers 500.  The two causes the handlers otherwise
    answer alike can thus be told apart, in both servers. *)
Theorem C5_login_without_password_tells_registered_email :
  forall env now db (m : gmap nat Session.Stored) (n : nat)
         (auth : option Jwt.Authorization) (c : option nat)
         (unknown known : string) (u : User),
    let w := Session.mkWorld db m n in
    User_findOne unknown db = None ->
    User_findOne known db = Some u ->
    (Jwt.handle env now (PostLogin (mkLoginBody unknown None)) auth db
     = (Responded 401 (JError "Invalid credentials"), db)
     /\ Jwt.handle env now (PostLogin (mkLoginBody known None)) auth db
        = (Responded 500 (JError "Login failed"), db))
    /\ (fst (Session.handle env now (PostLogin (mkLoginBody unknown None)) c w)
        = Responded 401 (JError "Invalid email or password")
        /\ fst (Session.handle env now (PostLogin (mkLoginBody known None)) c w)
           = Responded 500 (JError "Failed to login")).
Proof.
  intros env now db m n auth c unknown known u w Hnone Hsome.
  destruct (login_without_password env now auth c w unknown) as [Hj1 Hs1].
  destruct (login_without_password env now auth c w known) as [Hj2 Hs2].
  simpl in *. rewrite Hnone in Hj1, Hs1. rewrite Hsome in Hj2, Hs2.
  by repeat split.
Qed.

(** C5 at a concrete store: bob is registered, carol is not, and neither
    request carries a password. *)
Lemma C5_witness :
  Jwt.handle Sample.closedEnv 50 (PostLogin (mkLoginBody "carol@x.com" None)) None
    (mkDb [mkUser 1 "bob" "bob@x.com" (Sample.salted "pw") "employee"] [] [] 2 1 1)
  = (Responded 401 (JError "Invalid credentials"),
     mkDb [mkUser 1 "bob" "bob@x.com" (Sample.salted "pw") "employee"] [] [] 2 1 1)
  /\ Jwt.handle Sample.closedEnv 50 (PostLogin (mkLoginBody "bob@x.com" None)) None
       (mkDb [mkUser 1 "bob" "bob@x.com" (Sample.salted "pw") "employee"] [] [] 2 1 1)
     = (Responded 500 (JError "Login failed"),
        mkDb [mkUser 1 "bob" "bob@x.com" (Sample.salted "pw") "employee"] [] [] 2 1 1).
Proof.
  exact (proj1 (C5_login_without_password_tells_registered_email
                  Sample.closedEnv 50
                  (mkDb [mkUser 1 "bob" "bob@x.com" (Sample.salted "pw") "employee"]
                        [] [] 2 1 1)
                  ∅ 0 None None "carol@x.com" "bob@x.com"
                  (mkUser 1 "bob" "bob@x.com" (Sample.salted "pw") "employee")
                  eq_refl eq_refl)).
Defined.



(** ** The session store along a run *)

Lemma chain_keeps_session (r : Route) (req req' : Session.Req) :
  run_chain (Session.middlewares r) req = Next req' ->
  Session.sessionID req' = Session.sessionID req
  /\ Session.session req' = Session.session req.
Proof.
  unfold Session.middlewares.
  destruct (operation_of r) as [op|]; simpl.
  - unfold Session.requireAuth.
    destruct (Session.session req) as [[su|]|] eqn:Hs; try discriminate.
    destruct (negb _); [|discriminate].
    unfold Session.guards. simpl. intros H. inversion H. by simpl.
  - intros H. by inversion H.
Qed.

Lemma handler_sessions env (r : Route) (req : Session.Req) (w : Session.World) :
  let '(o, s, w') := Session.handler env r req w in
  Session.sidSeq w' = Session.sidSeq w
  /\ (Session.sessions w' = Session.sessions w
      \/ (s = Session.Destroyed
          /\ Session.sessions w'
             = delete (Session.sessionID req) (Session.sessions w))).
Proof.
  destruct r; simpl; try (split; [reflexivity|by left]).
  - destruct (Session.post_login env b req (Session.db w)) as [o s].
    split; [reflexivity|by left].
  - split; [reflexivity|]. right. by split.
Qed.

Lemma handle_touches env now (r : Route) (c : option nat) (w : Session.World) :
  touches (Session.cookie_of now c w)
          (Session.sessions (snd (Session.load now c w)))
          (Session.sessions (snd (Session.handle env now r c w)))
  /\ Session.sidSeq (snd (Session.handle env now r c w))
     = Session.sidSeq (snd (Session.load now c w)).
Proof.
  unfold Session.handle, Session.cookie_of.
  destruct (Session.load now c w) as [req w1]. simpl.
  destruct (run_chain (Session.middlewares r) req) as [req'|s b] eqn:Hc.
  - destruct (chain_keeps_session r req req' Hc) as [Hid Hs].
    pose proof (handler_sessions env r req' w1) as Hh.
    destruct (Session.handler env r req' w1) as [[o s] w2].
    destruct Hh as [Hseq Hm]. simpl. rewrite <- Hid.
    destruct o as [st body|e]; simpl.
    + split; [|exact Hseq].
      destruct Hm as [Hm|[-> Hm]]; rewrite Hm.
      * destruct s as [[su|]|]; simpl; [right; right; by eexists|by left|by left].
      * simpl. right. by left.
    + split; [|exact Hseq].
      destruct Hm as [Hm|[_ Hm]]; rewrite Hm; [by left|right; by left].
  - simpl. split; [|reflexivity].
    destruct (Session.session req) as [[su|]|]; simpl;
      [right; right; by eexists|by left|by left].
Qed.

(** The session a request gets is a new one, under the next id, or the
    stored one its cookie names. *)
Lemma load_cases now (c : option nat) (w : Session.World) :
  (Session.cookie_of now c w = Session.sidSeq w
   /\ Session.sidSeq (snd (Session.load now c w)) = S (Session.sidSeq w)
   /\ Session.session (fst (Session.load now c w)) = Session.Live None
   /\ (Session.sessions (snd (Session.load now c w)) = Session.sessions w
       \/ exists k, c = Some k
            /\ Session.sessions (snd (Session.load now c w))
               = delete k (Session.sessions w)))
  \/ (is_Some (Session.sessions w !! Session.cookie_of now c w)
      /\ c = Some (Session.cookie_of now c w)
      /\ snd (Session.load now c w) = w).
Proof.
  unfold Session.cookie_of, Session.load, Session.generate.
  destruct c as [sid|]; [|left; simpl; auto].
  destruct (Session.sessions w !! sid) as [st|] eqn:Hs; [|left; simpl; auto].
  destruct (Session.expires st <=? now)%Z; simpl.
  - left. repeat split; try done. right. by exists sid.
  - right. rewrite Hs. by repeat split.
Qed.

(** An entry the store holds after a request, other than the request's
    own session, was there before it. *)
Lemma handle_frame env now (r : Route) (c : option nat) (w : Session.World) k st :
  k <> Session.cookie_of now c w ->
  Session.sessions (snd (Session.handle env now r c w)) !! k = Some st ->
  Session.sessions w !! k = Some st.
Proof.
  intros Hk Hl.
  destruct (handle_touches env now r c w) as [Ht _].
  assert (H1 : Session.sessions (snd (Session.load now c w)) !! k = Some st).
  { destruct Ht as [E|[E|[st' E]]]; rewrite E in Hl.
    - done.
    - by rewrite lookup_delete_ne in Hl.
    - by rewrite lookup_insert_ne in Hl. }
  destruct (load_cases now c w) as [(_ & _ & _ & [E|(j & _ & E)])|(_ & _ & E)];
    rewrite E in H1; try done.
  destruct (decide (j = k)) as [->|Hne].
  - by rewrite lookup_delete_eq in H1.
  - by rewrite lookup_delete_ne in H1.
Qed.

Lemma handle_sidSeq env now (r : Route) (c : option nat) (w : Session.World) :
  Session.sidSeq w <= Session.sidSeq (snd (Session.handle env now r c w)).
Proof.
  destruct (handle_touches env now r c w) as [_ ->].
  destruct (load_cases now c w) as [(_ & -> & _)|(_ & _ & ->)]; lia.
Qed.

Lemma gone_handle env now (r : Route) (c : option nat) (w : Session.World) sid :
  gone sid w -> gone sid (snd (Session.handle env now r c w)).
Proof.
  intros [Hnone Hlt]. split.
  - assert (Hne : sid <> Session.cookie_of now c w).
    { destruct (load_cases now c w) as [(E & _)|([st Hst] & _)].
      - lia.
      - intros ->. congruence. }
    destruct (Session.sessions (snd (Session.handle env now r c w)) !! sid)
      as [st|] eqn:Hl; [|done].
    pose proof (handle_frame env now r c w sid st Hne Hl). congruence.
  - pose proof (handle_sidSeq env now r c w). lia.
Qed.

Lemma gone_run env (trace : list Session.Arrival) (w : Session.World) sid :
  gone sid w -> gone sid (Session.run env trace w).
Proof.
  revert w. induction trace as [|a rest IH]; intros w Hg; simpl; [done|].
  apply IH. by apply gone_handle.
Qed.

Lemma gone_unauthenticated now sid (w : Session.World) :
  gone sid w ->
  Session.resolve now (Some sid) w = Reply 401 (JError "Authentication required").
Proof.
  intros [Hnone _]. unfold Session.resolve, Session.load. by rewrite Hnone.
Qed.

Lemma issued_handle env now (r : Route) (c : option nat) (w : Session.World) :
  issued w -> issued (snd (Session.handle env now r c w)).
Proof.
  intros Hw sid st Hl.
  pose proof (handle_sidSeq env now r c w) as Hmono.
  destruct (decide (sid = Session.cookie_of now c w)) as [->|Hne].
  - destruct (handle_touches env now r c w) as [_ Hseq]. rewrite Hseq.
    destruct (load_cases now c w) as [(E & -> & _)|([st' Hst] & _ & ->)].
    + lia.
    + by eapply Hw.
  - pose proof (handle_frame env now r c w sid st Hne Hl) as Hold.
    apply Hw in Hold. lia.
Qed.

Lemma issued_run env (trace : list Session.Arrival) (w : Session.World) :
  issued w -> issued (Session.run env trace w).
Proof.
  revert w. induction trace as [|a rest IH]; intros w Hw; simpl; [done|].
  apply IH. by apply issued_handle.
Qed.

Lemma issued_init : issued Session.init.
Proof.
  intros sid st H. unfold Session.init in H.
  cbn [Session.sessions] in H. by rewrite lookup_empty in H.
Qed.

(** Logging out with a session id leaves no entry under it. *)
Lemma logout_removes env now sid (w : Session.World) :
  Session.sessions (snd (Session.handle env now PostLogout (Some sid) w)) !! sid
  = None.
Proof.
  unfold Session.handle, Session.load, Session.generate. simpl.
  destruct (Session.sessions w !! sid) as [st|] eqn:Hs; simpl.
  - destruct (Session.expires st <=? now)%Z; simpl.
    + destruct (decide (Session.sidSeq w = sid)) as [->|Hne].
      * apply lookup_delete_eq.
      * rewrite lookup_delete_ne by done. apply lookup_delete_eq.
    + apply lookup_delete_eq.
  - destruct (decide (Session.sidSeq w = sid)) as [->|Hne].
    + apply lookup_delete_eq.
    + by rewrite lookup_delete_ne.
Qed.

(** ** Logout *)

(** A token that verified once verifies at every time before its expiry,
    and at none from then on. *)
Lemma verify_until_expiry (mac : string -> Token.Payload -> string)
    token secret t0 p :
  Token.verify mac token secret t0 = Some p ->
  forall t,
    Token.verify mac token secret t
    = if (Token.exp p <=? t)%Z then None else Some p.
Proof.
  unfold Token.verify. destruct token as [q s|s]; [|discriminate].
  destruct (String.eqb s (mac secret q)); [|discriminate].
  destruct (Token.exp q <=? t0)%Z; [discriminate|].
  intros H t. by inversion H.
Qed.

(** C6.  Session server: after a logout that presents a stored session
    id, the store has no entry under that id, and whatever requests
    follow, presenting the id again is answered 401 by [requireAuth].
    Token server: the logout handler returns the database it was given
    and no request can tell that it ran; a token that verified before
    still passes [authenticateJWT] at every time before its embedded
    expiry, and is rejected from the expiry on. *)
Theorem C6_logout_ends_session_but_not_token :
  forall env (history : list Session.Arrival) now sid (st : Session.Stored),
    let w := Session.run env history Session.init in
    let w1 := snd (Session.handle env now PostLogout (Some sid) w) in
    Session.sessions w !! sid = Some st ->
    (Session.sessions w1 !! sid = None
     /\ forall (later : list Session.Arrival) t,
          Session.resolve t (Some sid) (Session.run env later w1)
          = Reply 401 (JError "Authentication required"))
    /\ (forall db a,
          Jwt.handle env now PostLogout a db
          = (Responded 200 (JMessage "Logout successful (JWT stateless)"), db))
    /\ (forall token p t0,
          Token.verify (hmac env) token (JWT_SECRET env) t0 = Some p ->
          forall t,
            (forall r db a,
               Jwt.handle env t r (Some (Jwt.Bearer token))
                          (snd (Jwt.handle env now PostLogout a db))
               = Jwt.handle env t r (Some (Jwt.Bearer token)) db)
            /\ ((t < Token.exp p)%Z ->
                Jwt.authenticateJWT env t (Jwt.mkReq (Some (Jwt.Bearer token)) None)
                = Next (Jwt.mkReq (Some (Jwt.Bearer token))
                                  (Some (Jwt.identity_of p))))
            /\ ((Token.exp p <= t)%Z ->
                Jwt.authenticateJWT env t (Jwt.mkReq (Some (Jwt.Bearer token)) None)
                = Reply 401 (JError "Invalid or expired token"))).
Proof.
  intros env history now sid st w w1 Hlive.
  assert (Hgone : gone sid w1).
  { split; [apply logout_removes|].
    pose proof (issued_run env history Session.init issued_init sid st Hlive).
    pose proof (handle_sidSeq env now PostLogout (Some sid) w).
    fold w in H. subst w1. lia. }
  split; [|split].
  - split; [apply Hgone|].
    intros later t. apply gone_unauthenticated. by apply gone_run.
  - reflexivity.
  - intros token p t0 Hv t. split; [reflexivity|].
    unfold Jwt.authenticateJWT. simpl.
    rewrite (verify_until_expiry (hmac env) token (JWT_SECRET env) t0 p Hv t).
    split; intros Ht.
    + destruct (Z.leb_spec (Token.exp p) t); [lia|done].
    + destruct (Z.leb_spec (Token.exp p) t); [done|lia].
Qed.

(** C6 at a concrete run: bob registers, logs in (session 1), logs out at
    time 30; a later login of bob gets another session, and session 1
    stays refused. *)
Lemma C6_witness :
  Session.resolve 60 (Some 1)
    (Session.run Sample.closedEnv
       [ Session.mkArrival 40 (PostLogin (mkLoginBody "bob@x.com" (Some "pw"))) (Some 1) ]
       (snd (Session.handle Sample.closedEnv 30 PostLogout (Some 1)
               (Session.run Sample.closedEnv
                  [ Session.mkArrival 10
                      (PostRegister (mkRegisterBody "bob" "bob@x.com" "pw" None)) None;
                    Session.mkArrival 20
                      (PostLogin (mkLoginBody "bob@x.com" (Some "pw"))) None ]
                  Session.init))))
  = Reply 401 (JError "Authentication required").
Proof.
  exact (proj2 (proj1
           (C6_logout_ends_session_but_not_token Sample.closedEnv
              [ Session.mkArrival 10
                  (PostRegister (mkRegisterBody "bob" "bob@x.com" "pw" None)) None;
                Session.mkArrival 20
                  (PostLogin (mkLoginBody "bob@x.com" (Some "pw"))) None ]
              30%Z 1
              (Session.mkStored (Session.mkSessionUser 1 "bob" "bob@x.com") 86400020)
              eq_refl))
           [ Session.mkArrival 40 (PostLogin (mkLoginBody "bob@x.com" (Some "pw"))) (Some 1) ]
           60%Z).
Defined.

(** ** Updating and deleting what is not there *)

Lemma find_none_all {A : Type} (f : A -> bool) (l : list A) :
  find f l = None -> Forall (fun x => f x = false) l.
Proof.
  induction l as [|x l IH]; simpl; [constructor|].
  destruct (f x) eqn:Hx; [discriminate|]. intros H. constructor; auto.
Qed.

Section Absent.
Context {A : Type} (f : A -> bool) (g : A -> A).



End Absent.











(** ** Partial update of a task *)

Lemma patch_task_id v t : task_id (patch_task v t) = task_id t.
Proof. reflexivity. Qed.

(** After patching the rows with one id, that id finds the patched row
    and every other id finds the row it found before. *)
Lemma find_after_patch v id (l : list Task) :
  find (has_task_id id)
       (map (fun t => if has_task_id id t then patch_task v t else t) l)
  = patch_task v <$> find (has_task_id id) l.
Proof.
  induction l as [|t l IH]; simpl; [done|].
  destruct (has_task_id id t) eqn:Ht.
  - unfold has_task_id in *. rewrite patch_task_id, Ht. done.
  - by rewrite Ht.
Qed.

Lemma find_other_after_patch v id id' (l : list Task) :
  id' <> id ->
  find (has_task_id id')
       (map (fun t => if has_task_id id t then patch_task v t else t) l)
  = find (has_task_id id') l.
Proof.
  intros Hne. induction l as [|t l IH]; simpl; [done|].
  destruct (has_task_id id t) eqn:Ht.
  - unfold has_task_id in *. rewrite patch_task_id.
    apply Nat.eqb_eq in Ht.
    destruct (Nat.eqb_spec (task_id t) id'); [lia|exact IH].
  - by rewrite IH.
Qed.

Lemma find_some_holds {A : Type} (f : A -> bool) (l : list A) x :
  find f l = Some x -> f x = true.
Proof.
  induction l as [|y l IH]; simpl; [discriminate|].
  destruct (f y) eqn:Hy; [|exact IH]. intros H. by inversion H; subst.
Qed.

Lemma filter_present {A : Type} (f : A -> bool) (l : list A) x :
  find f l = Some x -> length (filter (fun y => f y = true) l) <> 0.
Proof.
  induction l as [|y l IH]; simpl; [discriminate|].
  rewrite filter_cons. destruct (f y) eqn:Hy.
  - intros _. destruct (decide (true = true)); [simpl; lia|congruence].
  - intros H. destruct (decide (false = true)); [congruence|by apply IH].
Qed.

Lemma retains_same v t : retains v t t.
Proof. by repeat split. Qed.

Lemma retains_patch v t : retains v t (patch_task v t).
Proof.
  unfold retains, patch_task. simpl.
  repeat split; intros ->; reflexivity.
Qed.

Lemma retains_session_patch v t :
  retains v t (patch_task (Session.task_values v) t).
Proof.
  unfold retains, patch_task, Session.task_values. simpl.
  repeat split; try (intros ->); reflexivity.
Qed.

(** The row of [id], and of every other id, after each server's update. *)
Lemma jwt_put_task_row env id v t db :
  Task_findByPk id db = Some t ->
  (Task_findByPk id (snd (Jwt.put_task env id v db)) = Some t
   \/ Task_findByPk id (snd (Jwt.put_task env id v db)) = Some (patch_task v t))
  /\ forall id', id' <> id ->
       Task_findByPk id' (snd (Jwt.put_task env id v db)) = Task_findByPk id' db.
Proof.
  intros Ht. unfold Jwt.put_task. rewrite Ht.
  unfold Task_instance_update.
  destruct (check_task_patch (schema env) v db) as [e|]; simpl; [by split; [left|]|].
  assert (Hid : task_id t = id).
  { apply find_some_holds in Ht. by apply Nat.eqb_eq in Ht. }
  rewrite Hid. unfold Task_findByPk in *. simpl. split.
  - right. by rewrite find_after_patch, Ht.
  - intros id' Hne. by apply find_other_after_patch.
Qed.

Lemma session_put_task_row env id v t db :
  Task_findByPk id db = Some t ->
  (Task_findByPk id (snd (Session.put_task env id v db)) = Some t
   \/ Task_findByPk id (snd (Session.put_task env id v db))
      = Some (patch_task (Session.task_values v) t))
  /\ forall id', id' <> id ->
       Task_findByPk id' (snd (Session.put_task env id v db))
       = Task_findByPk id' db.
Proof.
  intros Ht. unfold Session.put_task, Task_update.
  destruct (check_task_patch (schema env) (Session.task_values v) db) as [e|];
    simpl; [by split; [left|]|].
  destruct (task_patch_empty (Session.task_values v)); simpl;
    [by split; [left|]|].
  match goal with |- context [Nat.eqb ?n 0] => destruct (Nat.eqb n 0) end;
    simpl; unfold Task_findByPk in *; simpl; (split;
      [right; by rewrite find_after_patch, Ht
      |intros id' Hne; by apply find_other_after_patch]).
Qed.

(** C8.  For an existing task, an update that supplies only [status] is
    answered 200 with the task in its new status and with its title,
    description, priority, assignee and project as before, in both
    servers, and that is the row the store then holds.  For any update
    whatever, the row of the task afterwards has, in every field the
    request left out, the value it had before, and the rows of all other
    tasks are found unchanged. *)
Theorem C8_update_changes_supplied_fields_only :
  forall env (id : nat) (t : Task) (s : string) db,
    Task_findByPk id db = Some t ->
    let only_status := mkTaskPatch None None (Some s) None None None in
    let t' := mkTask (task_id t) (task_title t) (task_description t)
                     (task_projectId t) (task_assignedUserId t)
                     (task_priority t) s in
    (fst (Jwt.put_task env id only_status db) = Responded 200 (JTask (Some t'))
     /\ Task_findByPk id (snd (Jwt.put_task env id only_status db)) = Some t')
    /\ (fst (Session.put_task env id only_status db)
        = Responded 200 (JTask (Some t'))
        /\ Task_findByPk id (snd (Session.put_task env id only_status db))
           = Some t')
    /\ (forall v : TaskPatch,
          (exists new,
             Task_findByPk id (snd (Jwt.put_task env id v db)) = Some new
             /\ retains v t new)
          /\ (exists new,
                Task_findByPk id (snd (Session.put_task env id v db)) = Some new
                /\ retains v t new)
          /\ (forall id', id' <> id ->
                Task_findByPk id' (snd (Jwt.put_task env id v db))
                = Task_findByPk id' db
                /\ Task_findByPk id' (snd (Session.put_task env id v db))
                   = Task_findByPk id' db)).
Proof.
  intros env id t s db Ht only_status t'.
  assert (Hid : task_id t = id).
  { apply find_some_holds in Ht. by apply Nat.eqb_eq in Ht. }
  split; [|split].
  - unfold Jwt.put_task. rewrite Ht. unfold Task_instance_update. simpl.
    split; [reflexivity|].
    rewrite Hid. unfold Task_findByPk in *. simpl.
    by rewrite find_after_patch, Ht.
  - unfold Session.put_task, Task_update. simpl.
    destruct (Nat.eqb_spec
                (length (filter (fun q => has_task_id id q = true) (tasks db))) 0)
      as [E|E].
    + by apply (filter_present (has_task_id id)) in Ht.
    + simpl. unfold Task_findByPk in *. simpl.
      by rewrite find_after_patch, Ht.
  - intros v.
    destruct (jwt_put_task_row env id v t db Ht) as [Hj Hjo].
    destruct (session_put_task_row env id v t db Ht) as [Hs Hso].
    split; [|split].
    + destruct Hj as [E|E]; eexists; (split; [exact E|]).
      * apply retains_same.
      * apply retains_patch.
    + destruct Hs as [E|E]; eexists; (split; [exact E|]).
      * apply retains_same.
      * apply retains_session_patch.
    + intros id' Hne. split; [by apply Hjo|by apply Hso].
Qed.

(** C8 at a concrete task: task 1 moves to "done". *)
Lemma C8_witness :
  fst (Session.put_task Sample.closedEnv 1
         (mkTaskPatch None None (Some "done") None None None)
         (mkDb [] [mkProject 1 "Launch" None "active" 1]
               [mkTask 1 "Write report" (Some "draft") 1 (Some 4) "high" "pending"]
               1 2 2))
  = Responded 200
      (JTask (Some (mkTask 1 "Write report" (Some "draft") 1 (Some 4) "high" "done"))).
Proof.
  exact (proj1 (proj1 (proj2
           (C8_update_changes_supplied_fields_only Sample.closedEnv 1
              (mkTask 1 "Write report" (Some "draft") 1 (Some 4) "high" "pending")
              "done"
              (mkDb [] [mkProject 1 "Launch" None "active" 1]
                    [mkTask 1 "Write report" (Some "draft") 1 (Some 4) "high" "pending"]
                    1 2 2)
              eq_refl)))).
Defined.

(** ** Registration: fresh emails succeed, used emails are refused *)

Lemma findOne_add_user email u db :
  User_findOne email (add_user u db)
  = match User_findOne email db with
    | Some v => Some v
    | None => if String.eqb (user_email u) email then Some u else None
    end.
Proof.
  unfold User_findOne, add_user. simpl.
  induction (users db) as [|v l IH]; simpl; [done|].
  by destruct (String.eqb (user_email v) email).
Qed.

Section Registrations.
Context {X : Type} (post : X -> Db -> Outcome * Db) (email_of : X -> string).
Context (valid : X -> Prop).

(** What a register handler does with a valid request for a new email. *)
Hypothesis post_fresh :
  forall x db,
    valid x ->
    User_findOne (email_of x) db = None ->
    exists o u,
      post x db = (o, add_user u db)
      /\ registered_id o = Some (userSeq db)
      /\ user_id u = userSeq db
      /\ user_email u = email_of x.

Lemma register_all_fresh (xs : list X) :
  forall db,
    Forall valid xs ->
    NoDup (email_of <$> xs) ->
    Forall (fun x => User_findOne (email_of x) db = None) xs ->
    exists rows,
      registered_id <$> fst (register_all post xs db)
        = Some <$> seq (userSeq db) (length xs)
      /\ users (snd (register_all post xs db)) = (users db ++ rows)%list
      /\ user_id <$> rows = seq (userSeq db) (length xs)
      /\ user_email <$> rows = email_of <$> xs
      /\ userSeq (snd (register_all post xs db)) = userSeq db + length xs.
Proof using post_fresh.
  induction xs as [|x rest IH]; intros db Hv Hnd Hfresh.
  - exists []. simpl. rewrite app_nil_r. repeat split; try done; lia.
  - inversion Hv as [|? ? Hvx Hvrest]; subst.
    inversion Hfresh as [|? ? Hfx Hfrest]; subst.
    rewrite fmap_cons in Hnd. apply NoDup_cons in Hnd as [Hnotin Hnd].
    destruct (post_fresh x db Hvx Hfx) as (o & u & Hpost & Hid & Huid & Hmail).
    assert (Hfresh' : Forall (fun y => User_findOne (email_of y) (add_user u db)
                                       = None) rest).
    { apply Forall_forall. intros y Hy.
      rewrite findOne_add_user.
      rewrite Forall_forall in Hfrest. rewrite (Hfrest y Hy).
      rewrite Hmail.
      destruct (String.eqb_spec (email_of x) (email_of y)) as [E|E]; [|done].
      exfalso. apply Hnotin. rewrite E. apply list_elem_of_fmap. by exists y. }
    destruct (IH (add_user u db) Hvrest Hnd Hfresh')
      as (rows & Hos & Husers & Hids & Hmails & Hseq).
    exists (u :: rows). simpl. rewrite Hpost.
    destruct (register_all post rest (add_user u db)) as [os db2].
    simpl in *. repeat split.
    + rewrite Hid. f_equal. exact Hos.
    + rewrite Husers. by rewrite <- app_assoc.
    + rewrite Huid. f_equal. exact Hids.
    + rewrite Hmail. f_equal. exact Hmails.
    + lia.
Qed.
End Registrations.

Lemma jwt_register_fresh env (x : Z * RegisterBody) db :
  roleAccepted (schema env) (default "employee" (rb_role (snd x))) = true ->
  User_findOne (rb_email (snd x)) db = None ->
  exists o u,
    Jwt.post_register env (fst x) (snd x) db = (o, add_user u db)
    /\ registered_id o = Some (userSeq db)
    /\ user_id u = userSeq db
    /\ user_email u = rb_email (snd x).
Proof.
  intros Hr Hf. unfold Jwt.post_register. rewrite Hf.
  rewrite (User_create_fresh (schema env) _ _ _ (Some _) db Hf Hr).
  by do 2 eexists.
Qed.

Lemma session_register_fresh env (b : RegisterBody) db :
  roleAccepted (schema env) (roleDefault (schema env)) = true ->
  User_findOne (rb_email b) db = None ->
  exists o u,
    Session.post_register env b db = (o, add_user u db)
    /\ registered_id o = Some (userSeq db)
    /\ user_id u = userSeq db
    /\ user_email u = rb_email b.
Proof.
  intros Hr Hf. unfold Session.post_register. rewrite Hf.
  rewrite (User_create_fresh (schema env) _ _ _ None db Hf Hr).
  by do 2 eexists.
Qed.

Lemma findOne_of_member u db :
  u ∈ users db -> exists v, User_findOne (user_email u) db = Some v.
Proof.
  unfold User_findOne. induction (users db) as [|w l IH]; intros Hin.
  - by apply elem_of_nil in Hin.
  - simpl. destruct (String.eqb_spec (user_email w) (user_email u)) as [E|E].
    + by eexists.
    + apply elem_of_cons in Hin as [->|Hin]; [done|by apply IH].
Qed.

Lemma NoDup_extend (old : list nat) (start n : nat) :
  Forall (fun i => i < start) old ->
  NoDup old ->
  NoDup (old ++ seq start n).
Proof.
  intros Hlt Hnd. apply NoDup_app. split; [done|]. split.
  - intros i Hi Hs. rewrite Forall_forall in Hlt. apply Hlt in Hi.
    apply list_elem_of_In, in_seq in Hs. lia.
  - apply NoDup_ListNoDup, seq_NoDup.
Qed.

(** C9.  Registrations whose emails are pairwise distinct and not yet in
    the store, and whose role the store accepts, all succeed, in both
    servers: the answers are 201 and report the consecutive identifiers
    from the store's next one on, each registration appends exactly one
    user row (with that identifier and that email), and the identifiers
    of all rows stay distinct.  A registration whose email is that of a
    stored user is answered 400 and changes nothing, whatever its name,
    password and role. *)
Theorem C9_registration_unique_emails :
  forall env db (reqs : list (Z * RegisterBody)),
    let bodies := snd <$> reqs in
    let n := length reqs in
    NoDup (rb_email <$> bodies) ->
    Forall (fun b => User_findOne (rb_email b) db = None) bodies ->
    (Forall (fun b => roleAccepted (schema env)
                        (default "employee" (rb_role b)) = true) bodies ->
     exists rows,
       let (answers, db') :=
         register_all (fun x => Jwt.post_register env (fst x) (snd x)) reqs db in
       registered_id <$> answers = Some <$> seq (userSeq db) n
       /\ users db' = (users db ++ rows)%list
       /\ user_id <$> rows = seq (userSeq db) n
       /\ user_email <$> rows = rb_email <$> bodies
       /\ (users_wf db -> NoDup (user_id <$> users db')))
    /\ (roleAccepted (schema env) (roleDefault (schema env)) = true ->
        exists rows,
          let (answers, db') :=
            register_all (Session.post_register env) bodies db in
          registered_id <$> answers = Some <$> seq (userSeq db) n
          /\ users db' = (users db ++ rows)%list
          /\ user_id <$> rows = seq (userSeq db) n
          /\ user_email <$> rows = rb_email <$> bodies
          /\ (users_wf db -> NoDup (user_id <$> users db')))
    /\ (forall now (b : RegisterBody) (u : User),
          u ∈ users db ->
          rb_email b = user_email u ->
          Jwt.post_register env now b db
            = (Responded 400 (JError "Email already exists"), db)
          /\ Session.post_register env b db
             = (Responded 400 (JError "User with this email already exists"),
                db)).
Proof.
  intros env db reqs bodies n Hnd Hfresh.
  assert (Hwf : forall rows db',
             users db' = (users db ++ rows)%list ->
             user_id <$> rows = seq (userSeq db) n ->
             users_wf db -> NoDup (user_id <$> users db')).
  { intros rows db' Hu Hids [Hlt Hnodup].
    rewrite Hu, fmap_app, Hids. apply NoDup_extend; [|done].
    by apply Forall_fmap. }
  split; [|split].
  - intros Hroles.
    destruct (register_all_fresh
                (fun x => Jwt.post_register env (fst x) (snd x))
                (fun x => rb_email (snd x))
                (fun x => roleAccepted (schema env)
                            (default "employee" (rb_role (snd x))) = true)
                (jwt_register_fresh env) reqs db)
      as (rows & Hos & Husers & Hids & Hmails & _).
    + subst bodies. by rewrite Forall_fmap in Hroles.
    + subst bodies. by rewrite <- list_fmap_compose in Hnd.
    + subst bodies. by rewrite Forall_fmap in Hfresh.
    + exists rows.
      destruct (register_all _ reqs db) as [answers db']. simpl in *.
      subst bodies. rewrite <- list_fmap_compose.
      repeat split; try done. by apply (Hwf rows).
  - intros Hrole.
    destruct (register_all_fresh (Session.post_register env) rb_email
                (fun _ => True)
                (fun b d _ => session_register_fresh env b d Hrole) bodies db)
      as (rows & Hos & Husers & Hids & Hmails & _); try done.
    + by apply Forall_forall.
    + exists rows.
      destruct (register_all _ bodies db) as [answers db']. simpl in *.
      subst bodies n. rewrite length_fmap in *.
      repeat split; try done. by apply (Hwf rows).
  - intros now b u Hin He.
    destruct (findOne_of_member u db Hin) as [v Hv].
    unfold Jwt.post_register, Session.post_register. by rewrite He, Hv.
Qed.

(** C9 at a concrete run on the empty store: alice and bob register. *)
Lemma C9_witness :
  exists rows,
    users (snd (register_all
                  (fun x => Jwt.post_register Sample.closedEnv (fst x) (snd x))
                  [ (10%Z, mkRegisterBody "alice" "alice@x.com" "a" (Some "manager"));
                    (20%Z, mkRegisterBody "bob" "bob@x.com" "b" None) ]
                  Store.empty))
    = rows
    /\ user_id <$> rows = [1; 2]
    /\ user_email <$> rows = ["alice@x.com"; "bob@x.com"].
Proof.
  destruct (C9_registration_unique_emails Sample.closedEnv Store.empty
              [ (10%Z, mkRegisterBody "alice" "alice@x.com" "a" (Some "manager"));
                (20%Z, mkRegisterBody "bob" "bob@x.com" "b" None) ])
    as [Hjwt _].
  - simpl. apply (bool_decide_unpack _). reflexivity.
  - repeat constructor.
  - destruct Hjwt as [rows Hrows]; [repeat constructor|].
    destruct (register_all _ _ Store.empty) as [answers db'].
    destruct Hrows as (_ & Hu & Hids & Hmails & _).
    exists (users db'). simpl. rewrite Hu. simpl. by repeat split.
Defined.

(** ** Role and priority are whatever the store lets through *)





(** * Further properties of the two servers *)

(** ** Requests that do not get past the middlewares *)

(** X1.  In the bearer-token server a request to any protected route
    that carries no [Authorization] header, a header that is not a bearer
    one, or a bearer token that does not verify at that time, is answered
    401 (with the message of the branch taken) and the database is left
    as it was: the handler is not run. *)
Theorem X1_token_server_rejects_bad_credentials :
  forall env now (r : Route) (op : Operation)
         (a : option Jwt.Authorization) db,
    operation_of r = Some op ->
    no_valid_token env now a ->
    Jwt.handle env now r a db
    = (Responded 401
         (JError match a with
                 | Some (Jwt.Bearer _) => "Invalid or expired token"
                 | Some (Jwt.OtherValue _) | None => "Missing or invalid token"
                 end),
       db).
Proof.
  intros env now r op a db Hop Hbad.
  unfold Jwt.handle, Jwt.middlewares. rewrite Hop. simpl.
  unfold Jwt.authenticateJWT. simpl.
  destruct a as [[token|v]|]; simpl in *; [by rewrite Hbad|done|done].
Qed.

(** X1 at a concrete request: a token signed with another secret, on the
    route that lists all users. *)
Lemma X1_witness :
  Jwt.handle Sample.closedEnv 20 GetUsers
    (Some (Jwt.Bearer
             (Token.sign Sample.digest 1 "eve" "eve@x.com" "admin"
                         "guessed" 3600 10)))
    Store.empty
  = (Responded 401 (JError "Invalid or expired token"), Store.empty).
Proof.
  exact (X1_token_server_rejects_bad_credentials Sample.closedEnv 20 GetUsers
           ListAllUsers
           (Some (Jwt.Bearer
                    (Token.sign Sample.digest 1 "eve" "eve@x.com" "admin"
                                "guessed" 3600 10)))
           Store.empty eq_refl eq_refl).
Defined.

(** X2.  In the bearer-token server a request to a protected route whose
    token verifies but whose role lies below the route's minimum is
    answered 403 and the database is left as it was; a request whose role
    suffices reaches the handler of the route with [req.user] set to the
    token's claims. *)
Theorem X2_forbidden_request_changes_nothing :
  forall env now (r : Route) (op : Operation) token p (role : Role) db,
    operation_of r = Some op ->
    Token.verify (hmac env) token (JWT_SECRET env) now = Some p ->
    Token.role p = role_name role ->
    (below role (minRole op) = true ->
     exists msg,
       Jwt.handle env now r (Some (Jwt.Bearer token)) db
       = (Responded 403 (JError msg), db))
    /\ (below role (minRole op) = false ->
        Jwt.handle env now r (Some (Jwt.Bearer token)) db
        = Jwt.handler env now r
            (Jwt.mkReq (Some (Jwt.Bearer token)) (Some (Jwt.identity_of p)))
            db).
Proof.
  intros env now r op token p role db Hop Hv Hr.
  unfold Jwt.handle.
  rewrite (token_chain_verdict env now r op token p Hop Hv).
  unfold Jwt.identity_of. rewrite Hr.
  split; intros Hb; destruct op, role; simpl in *; try discriminate;
    try reflexivity; by eexists.
Qed.

(** X2 at a concrete request: an employee's token on the route that
    creates a project. *)
Lemma X2_witness :
  Jwt.handle Sample.closedEnv 20
    (PostProjects (mkProjectBody "Launch" None None))
    (Some (Jwt.Bearer
             (Token.sign Sample.digest 1 "bob" "bob@x.com" "employee"
                         "secret" 3600 10)))
    (mkDb [mkUser 1 "bob" "bob@x.com" (Sample.salted "pw") "employee"] [] []
          2 1 1)
  = (Responded 403 (JError "Managers or admins only"),
     mkDb [mkUser 1 "bob" "bob@x.com" (Sample.salted "pw") "employee"] [] []
          2 1 1).
Proof.
  destruct (proj1 (X2_forbidden_request_changes_nothing Sample.closedEnv 20
                     (PostProjects (mkProjectBody "Launch" None None))
                     CreateProject
                     (Token.sign Sample.digest 1 "bob" "bob@x.com" "employee"
                                 "secret" 3600 10)
                     (Token.mkPayload 1 "bob" "bob@x.com" "employee" 10 3610)
                     employee
                     (mkDb [mkUser 1 "bob" "bob@x.com" (Sample.salted "pw")
                                   "employee"] [] [] 2 1 1)
                     eq_refl eq_refl eq_refl) eq_refl) as [msg H].
  rewrite H. f_equal. f_equal. f_equal.
  vm_compute in H. by inversion H.
Defined.

(** X3.  In the session server a request to any protected route that
    names no usable session (no cookie, a cookie the store has no entry
    for, or one whose entry has expired) is answered 401, the database is
    left as it was, and afterwards the store has no entry under the
    presented id: an expired entry is dropped, and the empty session made
    for the request is not stored. *)
Theorem X3_session_server_rejects_without_session :
  forall env now (r : Route) (op : Operation) (c : option nat)
         (w : Session.World),
    operation_of r = Some op ->
    no_live_session now c w ->
    fst (Session.handle env now r c w)
      = Responded 401 (JError "Authentication required")
    /\ Session.db (snd (Session.handle env now r c w)) = Session.db w
    /\ (forall sid, c = Some sid ->
          Session.sessions (snd (Session.handle env now r c w)) !! sid = None).
Proof.
  intros env now r op c w Hop Hno.
  unfold Session.handle, Session.load, Session.generate, Session.middlewares.
  rewrite Hop. unfold no_live_session in Hno.
  destruct c as [sid|]; simpl.
  - destruct (Session.sessions w !! sid) as [st|] eqn:Hs; simpl.
    + destruct (Z.leb_spec (Session.expires st) now) as [_|Hlt]; [|lia].
      simpl. repeat split; try done.
      intros k [= <-]. apply lookup_delete_eq.
    + repeat split; try done. by intros k [= <-].
  - repeat split; try done.
Qed.

(** X3 at a concrete request: bob's session of time 20, presented again
    after more than 24 hours without a request. *)
Lemma X3_witness :
  fst (Session.handle Sample.closedEnv 86400020 GetProjects (Some 1)
         (Session.run Sample.closedEnv
            [ Session.mkArrival 10
                (PostRegister (mkRegisterBody "bob" "bob@x.com" "pw" None)) None;
              Session.mkArrival 20
                (PostLogin (mkLoginBody "bob@x.com" (Some "pw"))) None ]
            Session.init))
  = Responded 401 (JError "Authentication required").
Proof.
  refine (proj1 (X3_session_server_rejects_without_session Sample.closedEnv
                   86400020 GetProjects ListProjects (Some 1)
                   (Session.run Sample.closedEnv
                      [ Session.mkArrival 10
                          (PostRegister (mkRegisterBody "bob" "bob@x.com" "pw" None))
                          None;
                        Session.mkArrival 20
                          (PostLogin (mkLoginBody "bob@x.com" (Some "pw"))) None ]
                      Session.init)
                   eq_refl _)).
  vm_compute. discriminate.
Defined.

(** ** Credentials, from issue to use *)

(** X4.  Bearer-token server: the token a successful login returns is
    accepted by [authenticateJWT] at every time before the login time plus
    the configured lifetime, and [req.user] is then the id, name, email
    and role of the user's row as it was at login; from that time on the
    token is refused.  Login itself leaves the database as it was. *)
Theorem X4_login_token_authenticates :
  forall env now db (b : LoginBody) (u : User),
    User_findOne (lb_email b) db = Some u ->
    compare_password env (lb_password b) (user_password u) = Ok true ->
    exists token,
      Jwt.handle env now (PostLogin b) None db
      = (Responded 200 (JAuth "Login successful" token (Jwt.view u)), db)
      /\ forall later,
           Jwt.authenticateJWT env later
             (Jwt.mkReq (Some (Jwt.Bearer token)) None)
           = if (now + JWT_EXPIRES_IN env <=? later)%Z
             then Reply 401 (JError "Invalid or expired token")
             else Next (Jwt.mkReq (Some (Jwt.Bearer token))
                          (Some (mkIdentity (user_id u) (user_name u)
                                            (user_email u)
                                            (Some (user_role u))))).
Proof.
  intros env now db b u Hu Hc. eexists. split.
  - unfold Jwt.handle. simpl. unfold Jwt.post_login. rewrite Hu, Hc. simpl.
    reflexivity.
  - intros later. unfold Jwt.authenticateJWT, Token.sign, Token.verify. simpl.
    rewrite String.eqb_refl.
    by destruct (now + JWT_EXPIRES_IN env <=? later)%Z.
Qed.

(** X4 at a concrete login: bob logs in at time 50; his token is good at
    time 3649 and not at time 3650. *)
Lemma X4_witness :
  exists token,
    Jwt.handle Sample.closedEnv 50 (PostLogin (mkLoginBody "bob@x.com" (Some "pw"))) None
      (mkDb [mkUser 1 "bob" "bob@x.com" (Sample.salted "pw") "manager"] [] []
            2 1 1)
    = (Responded 200
         (JAuth "Login successful" token
                (mkUserView 1 "bob" "bob@x.com" (Some "manager"))),
       mkDb [mkUser 1 "bob" "bob@x.com" (Sample.salted "pw") "manager"] [] []
            2 1 1)
    /\ Jwt.authenticateJWT Sample.closedEnv 3649
         (Jwt.mkReq (Some (Jwt.Bearer token)) None)
       = Next (Jwt.mkReq (Some (Jwt.Bearer token))
                 (Some (mkIdentity 1 "bob" "bob@x.com" (Some "manager"))))
    /\ Jwt.authenticateJWT Sample.closedEnv 3650
         (Jwt.mkReq (Some (Jwt.Bearer token)) None)
       = Reply 401 (JError "Invalid or expired token").
Proof.
  destruct (X4_login_token_authenticates Sample.closedEnv 50
              (mkDb [mkUser 1 "bob" "bob@x.com" (Sample.salted "pw") "manager"]
                    [] [] 2 1 1)
              (mkLoginBody "bob@x.com" (Some "pw"))
              (mkUser 1 "bob" "bob@x.com" (Sample.salted "pw") "manager")
              eq_refl eq_refl) as [token [H1 H2]].
  exists token. split; [exact H1|]. split.
  - exact (H2 3649%Z).
  - exact (H2 3650%Z).
Defined.

(** X5.  With a password hash that compares equal to the password it was
    made from, a user who registered can log in: after a successful
    registration for a new email, a login with the same email and password
    is answered 200 and shows the registered user, in both servers; a
    login with a password the hash does not compare to is answered 401. *)
Theorem X5_registered_user_can_log_in :
  forall env now later db (b : RegisterBody) (guess : string),
    (forall p, bcrypt_compare env p (bcrypt_hash env p) = true) ->
    User_findOne (rb_email b) db = None ->
    (roleAccepted (schema env) (default "employee" (rb_role b)) = true ->
     let db' := snd (Jwt.post_register env now b db) in
     (exists token,
        Jwt.post_login env later (mkLoginBody (rb_email b) (Some (rb_password b))) db'
        = (Responded 200
             (JAuth "Login successful" token
                    (mkUserView (userSeq db) (rb_name b) (rb_email b)
                                (Some (default "employee" (rb_role b))))),
           db'))
     /\ (bcrypt_compare env guess (bcrypt_hash env (rb_password b)) = false ->
         Jwt.post_login env later (mkLoginBody (rb_email b) (Some guess)) db'
         = (Responded 401 (JError "Invalid credentials"), db')))
    /\ (roleAccepted (schema env) (roleDefault (schema env)) = true ->
        let db' := snd (Session.post_register env b db) in
        forall req,
          (fst (Session.post_login env
                  (mkLoginBody (rb_email b) (Some (rb_password b))) req db')
           = Responded 200
               (JMessageUser "Login successful"
                  (mkUserView (userSeq db) (rb_name b) (rb_email b) None)))
          /\ (bcrypt_compare env guess (bcrypt_hash env (rb_password b)) = false ->
              fst (Session.post_login env (mkLoginBody (rb_email b) (Some guess))
                                      req db')
              = Responded 401 (JError "Invalid email or password"))).
Proof.
  intros env now later db b guess Hbcrypt Hfresh. split.
  - intros Hr db'. subst db'. unfold Jwt.post_register. rewrite Hfresh.
    rewrite (User_create_fresh (schema env) _ _ _ (Some _) db Hfresh Hr).
    simpl. fold (add_user (mkUser (userSeq db) (rb_name b) (rb_email b)
                             (bcrypt_hash env (rb_password b))
                             (default "employee" (rb_role b))) db).
    unfold Jwt.post_login. simpl. rewrite findOne_add_user, Hfresh. simpl.
    rewrite String.eqb_refl. simpl. split.
    + rewrite Hbcrypt. simpl. by eexists.
    + by intros ->.
  - intros Hr db' req. subst db'. unfold Session.post_register. rewrite Hfresh.
    rewrite (User_create_fresh (schema env) _ _ _ None db Hfresh Hr).
    simpl. fold (add_user (mkUser (userSeq db) (rb_name b) (rb_email b)
                             (bcrypt_hash env (rb_password b))
                             (roleDefault (schema env))) db).
    unfold Session.post_login. simpl. rewrite findOne_add_user, Hfresh. simpl.
    rewrite String.eqb_refl. simpl. split.
    + by rewrite Hbcrypt.
    + by intros ->.
Qed.

(** X5 at a concrete run on the empty store: alice registers with "pw". *)
Lemma X5_witness :
  fst (Session.post_login Sample.closedEnv (mkLoginBody "alice@x.com" (Some "pw"))
         (Session.mkReq 0 (Session.Live None) None)
         (snd (Session.post_register Sample.closedEnv
                 (mkRegisterBody "alice" "alice@x.com" "pw" None) Store.empty)))
  = Responded 200
      (JMessageUser "Login successful"
                    (mkUserView 1 "alice" "alice@x.com" None))
  /\ fst (Session.post_login Sample.closedEnv (mkLoginBody "alice@x.com" (Some "pW"))
            (Session.mkReq 0 (Session.Live None) None)
            (snd (Session.post_register Sample.closedEnv
                    (mkRegisterBody "alice" "alice@x.com" "pw" None)
                    Store.empty)))
     = Responded 401 (JError "Invalid email or password").
Proof.
  assert (Hlaw : forall p,
             bcrypt_compare Sample.closedEnv p (bcrypt_hash Sample.closedEnv p)
             = true).
  { intros p. simpl. apply String.eqb_refl. }
  destruct (proj2 (X5_registered_user_can_log_in Sample.closedEnv 10 20
                     Store.empty
                     (mkRegisterBody "alice" "alice@x.com" "pw" None) "pW"
                     Hlaw eq_refl) eq_refl
                  (Session.mkReq 0 (Session.Live None) None)) as [H1 H2].
  split; [exact H1|exact (H2 eq_refl)].
Defined.

(** ** The shape of the store along a run *)

Section FreshIds.
Context {A : Type} (key : A -> nat).

Lemma fresh_ids_snoc (next : nat) (rows : list A) (x : A) :
  fresh_ids key next rows -> key x = next ->
  fresh_ids key (S next) (rows ++ [x]).
Proof.
  intros [Hlt Hnd] Hx. split.
  - apply Forall_app. split.
    + eapply Forall_impl; [exact Hlt|]. intros r Hr. simpl in *. lia.
    + constructor; [lia|constructor].
  - rewrite fmap_app. apply NoDup_app. split; [done|]. split.
    + intros i Hi Hin. simpl in Hin. apply list_elem_of_singleton in Hin.
      apply list_elem_of_fmap in Hi as (r & -> & Hr).
      rewrite Forall_forall in Hlt. apply Hlt in Hr. lia.
    + simpl. apply NoDup_singleton.
Qed.

Lemma fresh_ids_patch (next : nat) (rows : list A) (c : A -> bool)
    (g : A -> A) :
  (forall x, key (g x) = key x) ->
  fresh_ids key next rows ->
  fresh_ids key next (map (fun x => if c x then g x else x) rows).
Proof.
  intros Hg [Hlt Hnd].
  assert (Hkeys : key <$> map (fun x => if c x then g x else x) rows
                  = key <$> rows).
  { clear Hlt Hnd. induction rows as [|x l IH]; simpl; [done|].
    f_equal; [|exact IH]. destruct (c x); [apply Hg|done]. }
  split.
  - rewrite Forall_forall in *. intros x Hx.
    change (x ∈ (fun x => if c x then g x else x) <$> rows) in Hx.
    apply list_elem_of_fmap in Hx as (y & -> & Hy).
    destruct (c y); [rewrite Hg|]; by apply Hlt.
  - by rewrite Hkeys.
Qed.

Lemma fresh_ids_filter (next : nat) (rows : list A) (P : A -> Prop)
    `{forall x, Decision (P x)} :
  fresh_ids key next rows -> fresh_ids key next (filter P rows).
Proof.
  intros [Hlt Hnd]. split.
  - rewrite Forall_forall in *. intros x Hx.
    apply list_elem_of_filter in Hx as [_ Hx]. by apply Hlt.
  - eapply sublist_NoDup; [exact Hnd|]. apply fmap_sublist, sublist_filter.
Qed.

Lemma fresh_ids_find (next : nat) (rows : list A) (x : A) :
  fresh_ids key next rows -> key x = next ->
  find (fun r => Nat.eqb (key r) next) (rows ++ [x]) = Some x.
Proof.
  intros [Hlt _] Hx. induction Hlt as [|r l Hr _ IH]; simpl.
  - by rewrite Hx, Nat.eqb_refl.
  - destruct (Nat.eqb_spec (key r) next); [lia|exact IH].
Qed.
End FreshIds.

Lemma User_create_wf sch name email password role db u db' :
  store_wf db ->
  User_findOne email db = None ->
  User_create sch name email password role db = Ok (u, db') ->
  store_wf db'.
Proof.
  intros (Hmail & Hu & Hp & Ht) Hnone. unfold User_create.
  destruct (negb _); [discriminate|].
  destruct (_ && _); [discriminate|].
  intros [= <- <-]. split; [|split; [|split]]; simpl; [| |exact Hp|exact Ht].
  - rewrite fmap_app. apply NoDup_app. split; [done|]. split.
    + intros e He Hin. simpl in Hin. apply list_elem_of_singleton in Hin.
      subst e. apply list_elem_of_fmap in He as (v & -> & Hv).
      apply find_none_all in Hnone. rewrite Forall_forall in Hnone.
      apply Hnone in Hv. by rewrite String.eqb_refl in Hv.
    + simpl. apply NoDup_singleton.
  - by apply (fresh_ids_snoc user_id).
Qed.

Lemma Project_create_wf sch name description status managerId db p db' :
  store_wf db ->
  Project_create sch name description status managerId db = Ok (p, db') ->
  store_wf db'.
Proof.
  intros (Hmail & Hu & Hp & Ht). unfold Project_create.
  destruct (_ && _); [discriminate|].
  intros [= <- <-]. split; [|split; [|split]]; simpl;
    [exact Hmail|exact Hu|by apply (fresh_ids_snoc project_id)|exact Ht].
Qed.

Lemma Task_create_wf sch title description projectId assignee priority status
    db t db' :
  store_wf db ->
  Task_create sch title description projectId assignee priority status db
  = Ok (t, db') ->
  store_wf db'.
Proof.
  intros (Hmail & Hu & Hp & Ht). unfold Task_create.
  destruct (negb (priorityAccepted _ _)); [discriminate|].
  destruct (_ && _); [discriminate|].
  destruct (negb (check_assignee _ _ _)); [discriminate|].
  intros [= <- <-]. split; [|split; [|split]]; simpl;
    [exact Hmail|exact Hu|exact Hp|by apply (fresh_ids_snoc task_id)].
Qed.

Lemma set_projects_wf db ps :
  store_wf db -> fresh_ids project_id (projectSeq db) ps ->
  store_wf (set_projects ps db).
Proof. intros (Hmail & Hu & _ & Ht) Hp. by split; [|split; [|split]]. Qed.

Lemma set_tasks_wf db ts :
  store_wf db -> fresh_ids task_id (taskSeq db) ts ->
  store_wf (set_tasks ts db).
Proof. intros (Hmail & Hu & Hp & _) Ht. by split; [|split; [|split]]. Qed.

Lemma Project_update_wf sch v id db n db' :
  store_wf db -> Project_update sch v id db = Ok (n, db') -> store_wf db'.
Proof.
  intros Hwf. unfold Project_update.
  destruct (check_project_patch _ _ _); [discriminate|].
  destruct (project_patch_empty v); intros [= <- <-]; [done|].
  apply set_projects_wf; [done|].
  apply (fresh_ids_patch project_id); [done|apply Hwf].
Qed.

Lemma Project_instance_update_wf sch v p db p' db' :
  store_wf db -> Project_instance_update sch v p db = Ok (p', db') ->
  store_wf db'.
Proof.
  intros Hwf. unfold Project_instance_update.
  destruct (check_project_patch _ _ _); [discriminate|].
  intros [= <- <-]. apply set_projects_wf; [done|].
  apply (fresh_ids_patch project_id); [done|apply Hwf].
Qed.

Lemma Project_destroy_wf sch id db n db' :
  store_wf db -> Project_destroy sch id db = Ok (n, db') -> store_wf db'.
Proof.
  intros Hwf. unfold Project_destroy.
  destruct (_ && _); [discriminate|]. intros [= <- <-].
  apply set_projects_wf; [done|].
  apply (fresh_ids_filter project_id), Hwf.
Qed.

Lemma Task_update_wf sch v id db n db' :
  store_wf db -> Task_update sch v id db = Ok (n, db') -> store_wf db'.
Proof.
  intros Hwf. unfold Task_update.
  destruct (check_task_patch _ _ _); [discriminate|].
  destruct (task_patch_empty v); intros [= <- <-]; [done|].
  apply set_tasks_wf; [done|].
  apply (fresh_ids_patch task_id); [done|apply Hwf].
Qed.

Lemma Task_instance_update_wf sch v t db t' db' :
  store_wf db -> Task_instance_update sch v t db = Ok (t', db') ->
  store_wf db'.
Proof.
  intros Hwf. unfold Task_instance_update.
  destruct (check_task_patch _ _ _); [discriminate|].
  intros [= <- <-]. apply set_tasks_wf; [done|].
  apply (fresh_ids_patch task_id); [done|apply Hwf].
Qed.

Lemma Task_destroy_wf id db :
  store_wf db -> store_wf (snd (Task_destroy id db)).
Proof.
  intros Hwf. unfold Task_destroy. simpl.
  apply set_tasks_wf; [done|].
  apply (fresh_ids_filter task_id), Hwf.
Qed.

Lemma store_wf_empty : store_wf Store.empty.
Proof. repeat split; simpl; try constructor. Qed.

Lemma Task_destroy_wf_eq id db n db' :
  store_wf db -> Task_destroy id db = (n, db') -> store_wf db'.
Proof.
  intros Hwf H. change db' with (snd (n, db')). rewrite <- H.
  by apply Task_destroy_wf.
Qed.

(** Case analysis on what a handler branches on, closing each branch with
    the fact about the model call it made. *)
Ltac handler_wf :=
  repeat match goal with
         | |- store_wf (snd (match ?x with _ => _ end)) =>
             destruct x eqn:?; simpl
         | |- store_wf (snd (let (_, _) := ?x in _)) =>
             destruct x eqn:?; simpl
         | |- store_wf (snd (if ?c then _ else _)) => destruct c; simpl
         end;
  eauto using User_create_wf, Project_create_wf, Task_create_wf,
    Project_update_wf, Project_instance_update_wf, Project_destroy_wf,
    Task_update_wf, Task_instance_update_wf, Task_destroy_wf_eq.

Lemma jwt_handler_wf env now (r : Route) (req : Jwt.Req) db :
  store_wf db -> store_wf (snd (Jwt.handler env now r req db)).
Proof.
  intros Hwf.
  destruct r; simpl;
    unfold Jwt.with_user, Jwt.post_register, Jwt.post_login, Jwt.post_logout,
      Jwt.get_profile, Jwt.get_users, Jwt.get_projects, Jwt.get_project,
      Jwt.post_projects, Jwt.put_project, Jwt.delete_project,
      Jwt.get_project_tasks, Jwt.post_project_tasks, Jwt.put_task,
      Jwt.delete_task; simpl; handler_wf.
Qed.

Lemma jwt_handle_wf env now (r : Route) a db :
  store_wf db -> store_wf (snd (Jwt.handle env now r a db)).
Proof.
  intros Hwf. unfold Jwt.handle.
  destruct (run_chain _ _); [by apply jwt_handler_wf|done].
Qed.

Lemma session_handle_db env now (r : Route) (c : option nat)
    (w : Session.World) :
  store_wf (Session.db w) ->
  store_wf (Session.db (snd (Session.handle env now r c w))).
Proof.
  intros Hwf. unfold Session.handle.
  pose proof (load_db now c w) as Hdb.
  destruct (Session.load now c w) as [req w1]. simpl in Hdb.
  rewrite <- Hdb in Hwf.
  destruct (run_chain _ req) as [req'|s b]; [|done].
  assert (H : store_wf (Session.db (snd (Session.handler env r req' w1)))).
  { destruct r; simpl; try done;
      unfold Session.with_user, Session.post_register, Session.post_login,
        Session.get_health, Session.get_profile, Session.get_users,
        Session.get_projects, Session.get_project, Session.post_projects,
        Session.put_project, Session.delete_project,
        Session.get_project_tasks, Session.post_project_tasks,
        Session.put_task, Session.delete_task; simpl;
      try (change (Session.db w1) with (Session.db w1));
      repeat match goal with
             | |- context [match ?x with _ => _ end] => destruct x eqn:?; simpl
             | |- context [let (_, _) := ?x in _] => destruct x eqn:?; simpl
             end;
      eauto using User_create_wf, Project_create_wf, Task_create_wf,
        Project_update_wf, Project_instance_update_wf, Project_destroy_wf,
        Task_update_wf, Task_instance_update_wf, Task_destroy_wf_eq. }
  destruct (Session.handler env r req' w1) as [[o s] w2]. simpl in *.
  by destruct o.
Qed.

(** X6.  Starting from the empty store, whatever requests either server
    handles, one after the other: no two user rows have the same email,
    and in each of the three tables the identifiers are pairwise distinct
    and below the next one to be handed out.  The email part rests on the
    register handlers' own lookup before the insert, not on a constraint
    of the store. *)
Theorem X6_store_shape_is_kept :
  forall env,
    (forall trace : list Jwt.Arrival,
       store_wf (Jwt.run env trace Store.empty))
    /\ (forall trace : list Session.Arrival,
          store_wf (Session.db (Session.run env trace Session.init))).
Proof.
  intros env. split.
  - assert (H : forall trace db, store_wf db -> store_wf (Jwt.run env trace db)).
    { induction trace as [|a rest IH]; intros db Hwf; simpl; [done|].
      apply IH. by apply jwt_handle_wf. }
    intros trace. apply H, store_wf_empty.
  - assert (H : forall trace w,
               store_wf (Session.db w) ->
               store_wf (Session.db (Session.run env trace w))).
    { induction trace as [|a rest IH]; intros w Hwf; simpl; [done|].
      apply IH. by apply session_handle_db. }
    intros trace. apply H, store_wf_empty.
Qed.

(** ** Creating a project *)

Lemma post_projects_same env u b db :
  Session.post_projects env u b db = Jwt.post_projects env u b db.
Proof.
  unfold Session.post_projects, Jwt.post_projects.
  by destruct (Project_create _ _ _ _ _ _) as [[p db']|e].
Qed.

Lemma post_projects_row env (u : Identity) (b : ProjectBody) db :
  Jwt.post_projects env u b db
  = if foreignKeys (schema env) && negb (references_user (ident_id u) db)
    then (Unhandled (ForeignKeyConstraintError "managerId"), db)
    else
      let row := mkProject (projectSeq db) (pb_name b) (pb_description b)
                           (default "active" (pb_status b)) (ident_id u) in
      (Responded 201 (JProject (Some row)),
       mkDb (users db) (projects db ++ [row]) (tasks db)
            (userSeq db) (S (projectSeq db)) (taskSeq db)).
Proof.
  unfold Jwt.post_projects, Project_create.
  by destruct (foreignKeys (schema env) && _).
Qed.

(** X7.  A project is created for the caller: in both servers the new
    row's [managerId] is the id of the authenticated identity (the token's
    [id] claim, the session's [userId]), nothing in the body can set it,
    its status is the body's or "active" when the body has none, and it
    gets the table's next identifier; the answer is 201 with that row.
    Where the store checks foreign keys and no user has that id, the
    store's error leaves the handler uncaught and no row is created. *)
Theorem X7_project_is_created_for_the_caller :
  forall env now (b : ProjectBody) token p (role : Role) db
         (sid : nat) (st : Session.Stored) (w : Session.World),
    Token.verify (hmac env) token (JWT_SECRET env) now = Some p ->
    Token.role p = role_name role ->
    below role manager = false ->
    Session.sessions w !! sid = Some st ->
    (now < Session.expires st)%Z ->
    Session.userId (Session.data st) <> 0 ->
    let row_of (next owner : nat) :=
      mkProject next (pb_name b) (pb_description b)
                (default "active" (pb_status b)) owner in
    let caller := Session.userId (Session.data st) in
    (Jwt.handle env now (PostProjects b) (Some (Jwt.Bearer token)) db
     = if foreignKeys (schema env) && negb (references_user (Token.id p) db)
       then (Unhandled (ForeignKeyConstraintError "managerId"), db)
       else (Responded 201 (JProject (Some (row_of (projectSeq db) (Token.id p)))),
             mkDb (users db)
                  (projects db ++ [row_of (projectSeq db) (Token.id p)])
                  (tasks db) (userSeq db) (S (projectSeq db)) (taskSeq db)))
    /\ (fst (Session.handle env now (PostProjects b) (Some sid) w)
        = if foreignKeys (schema env)
             && negb (references_user caller (Session.db w))
          then Unhandled (ForeignKeyConstraintError "managerId")
          else Responded 201
                 (JProject (Some (row_of (projectSeq (Session.db w)) caller))))
    /\ (projects (Session.db (snd (Session.handle env now (PostProjects b)
                                                  (Some sid) w)))
        = if foreignKeys (schema env)
             && negb (references_user caller (Session.db w))
          then projects (Session.db w)
          else (projects (Session.db w)
                  ++ [row_of (projectSeq (Session.db w)) caller])%list).
Proof.
  intros env now b token p role db sid st w Hv Hr Hb Hs Hlt Hid row_of caller.
  split; [|split].
  - unfold Jwt.handle.
    rewrite (token_chain_verdict env now (PostProjects b) CreateProject
               token p eq_refl Hv).
    simpl. unfold Jwt.requireManager, Jwt.identity_of. simpl. rewrite Hr.
    destruct role; [discriminate| |]; simpl; unfold Jwt.with_user; simpl;
      apply post_projects_row.
  - unfold Session.handle. rewrite (load_live now sid st w Hs Hlt). simpl.
    unfold Session.requireAuth. simpl.
    destruct (Nat.eqb_spec (Session.userId (Session.data st)) 0); [done|].
    simpl. unfold Session.with_user. simpl.
    rewrite post_projects_same, post_projects_row. simpl. fold caller.
    by destruct (foreignKeys (schema env) && _).
  - unfold Session.handle. rewrite (load_live now sid st w Hs Hlt). simpl.
    unfold Session.requireAuth. simpl.
    destruct (Nat.eqb_spec (Session.userId (Session.data st)) 0); [done|].
    simpl. unfold Session.with_user. simpl.
    rewrite post_projects_same, post_projects_row. simpl. fold caller.
    by destruct (foreignKeys (schema env) && _).
Qed.

(** X7 at a concrete request: alice, a manager with id 1, creates
    "Launch" with her token. *)
Lemma X7_witness :
  Jwt.handle Sample.closedEnv 20
    (PostProjects (mkProjectBody "Launch" None None))
    (Some (Jwt.Bearer
             (Token.sign Sample.digest 1 "alice" "alice@x.com" "manager"
                         "secret" 3600 10)))
    (mkDb [mkUser 1 "alice" "alice@x.com" (Sample.salted "pw") "manager"]
          [] [] 2 1 1)
  = (Responded 201 (JProject (Some (mkProject 1 "Launch" None "active" 1))),
     mkDb [mkUser 1 "alice" "alice@x.com" (Sample.salted "pw") "manager"]
          [mkProject 1 "Launch" None "active" 1] [] 2 2 1).
Proof.
  exact (proj1 (X7_project_is_created_for_the_caller Sample.closedEnv 20
                  (mkProjectBody "Launch" None None)
                  (Token.sign Sample.digest 1 "alice" "alice@x.com" "manager"
                              "secret" 3600 10)
                  (Token.mkPayload 1 "alice" "alice@x.com" "manager" 10 3610)
                  manager
                  (mkDb [mkUser 1 "alice" "alice@x.com" (Sample.salted "pw")
                                "manager"] [] [] 2 1 1)
                  5
                  (Session.mkStored (Session.mkSessionUser 1 "alice" "alice@x.com")
                                    100)
                  (Session.mkWorld Store.empty
                     {[ 5 := Session.mkStored
                               (Session.mkSessionUser 1 "alice" "alice@x.com")
                               100 ]} 6)
                  eq_refl eq_refl eq_refl eq_refl eq_refl
                  (fun H : 1 = 0 => O_S 0 (eq_sym H)))).
Defined.

(** ** Deleting a row that is there *)

Section FindFilter.
Context {A : Type} (f f' : A -> bool).


End FindFilter.







(** ** Updating a project, and what an update can reach *)

Lemma find_after_project_patch v id (l : list Project) :
  find (has_project_id id)
       (map (fun p => if has_project_id id p then patch_project v p else p) l)
  = patch_project v <$> find (has_project_id id) l.
Proof.
  induction l as [|p l IH]; simpl; [done|].
  destruct (has_project_id id p) eqn:Hp.
  - unfold has_project_id in *. simpl. by rewrite Hp.
  - by rewrite Hp.
Qed.

Lemma find_other_after_project_patch v id id' (l : list Project) :
  id' <> id ->
  find (has_project_id id')
       (map (fun p => if has_project_id id p then patch_project v p else p) l)
  = find (has_project_id id') l.
Proof.
  intros Hne. induction l as [|p l IH]; simpl; [done|].
  destruct (has_project_id id p) eqn:Hp.
  - unfold has_project_id in *. simpl. apply Nat.eqb_eq in Hp.
    destruct (Nat.eqb_spec (project_id p) id'); [lia|exact IH].
  - by rewrite IH.
Qed.

Lemma retains_project_same v p : retains_project v p p.
Proof. by repeat split. Qed.

Lemma retains_project_patch v p : retains_project v p (patch_project v p).
Proof.
  unfold retains_project, patch_project. simpl.
  repeat split; intros ->; reflexivity.
Qed.

Lemma retains_project_session_patch v p :
  retains_project v p (patch_project (Session.project_values v) p)
  /\ project_managerId (patch_project (Session.project_values v) p)
     = project_managerId p.
Proof.
  unfold retains_project, patch_project, Session.project_values. simpl.
  repeat split; try (intros ->); reflexivity.
Qed.

Lemma jwt_put_project_row env id v p db :
  Project_findByPk id db = Some p ->
  (Project_findByPk id (snd (Jwt.put_project env id v db)) = Some p
   \/ Project_findByPk id (snd (Jwt.put_project env id v db))
      = Some (patch_project v p))
  /\ (check_project_patch (schema env) v db = None ->
      fst (Jwt.put_project env id v db)
        = Responded 200 (JProject (Some (patch_project v p)))
      /\ Project_findByPk id (snd (Jwt.put_project env id v db))
         = Some (patch_project v p))
  /\ forall id', id' <> id ->
       Project_findByPk id' (snd (Jwt.put_project env id v db))
       = Project_findByPk id' db.
Proof.
  intros Hp. unfold Jwt.put_project. rewrite Hp.
  unfold Project_instance_update.
  assert (Hid : project_id p = id).
  { apply find_some_holds in Hp. by apply Nat.eqb_eq in Hp. }
  destruct (check_project_patch (schema env) v db) as [e|]; simpl.
  - split; [by left|]. by split.
  - rewrite Hid. unfold Project_findByPk in *. simpl.
    change (fun q => Nat.eqb (project_id q) id) with (has_project_id id).
    rewrite find_after_project_patch.
    change (has_project_id id) with (fun q => Nat.eqb (project_id q) id).
    rewrite Hp. simpl. split; [by right|]. split; [done|].
    intros id' Hne. by apply find_other_after_project_patch.
Qed.

Lemma session_put_project_row env id v p db :
  Project_findByPk id db = Some p ->
  (Project_findByPk id (snd (Session.put_project env id v db)) = Some p
   \/ Project_findByPk id (snd (Session.put_project env id v db))
      = Some (patch_project (Session.project_values v) p))
  /\ (project_patch_empty (Session.project_values v) = false ->
      fst (Session.put_project env id v db)
        = Responded 200
            (JProject (Some (patch_project (Session.project_values v) p)))
      /\ Project_findByPk id (snd (Session.put_project env id v db))
         = Some (patch_project (Session.project_values v) p))
  /\ forall id', id' <> id ->
       Project_findByPk id' (snd (Session.put_project env id v db))
       = Project_findByPk id' db.
Proof.
  intros Hp. unfold Session.put_project, Project_update.
  unfold check_project_patch. simpl.
  destruct (project_patch_empty (Session.project_values v)); simpl.
  - split; [by left|]. by split.
  - pose proof (filter_present (has_project_id id) _ _ Hp) as Hlen.
    destruct (Nat.eqb_spec
                (length (filter (fun q => has_project_id id q = true)
                                (projects db))) 0) as [E|E]; [done|].
    simpl. unfold Project_findByPk in *. simpl.
    change (fun q => Nat.eqb (project_id q) id) with (has_project_id id).
    rewrite find_after_project_patch.
    change (has_project_id id) with (fun q => Nat.eqb (project_id q) id).
    rewrite Hp. simpl. split; [by right|]. split; [done|].
    intros id' Hne. by apply find_other_after_project_patch.
Qed.

(** X9.  Updating an existing project changes, in both servers, only
    fields the request supplies: in the row found afterwards every field
    the request left out has its previous value, and every other project
    is found as before.  When the store accepts the values the
    bearer-token server answers 200 with the row patched by all supplied
    fields; the session server answers 200 with the row patched by the
    supplied name, description and status, provided the request supplies
    at least one of them. *)
Theorem X9_project_update_is_partial :
  forall env (id : nat) (p : Project) (v : ProjectPatch) db,
    Project_findByPk id db = Some p ->
    (exists new,
       Project_findByPk id (snd (Jwt.put_project env id v db)) = Some new
       /\ retains_project v p new)
    /\ (exists new,
          Project_findByPk id (snd (Session.put_project env id v db)) = Some new
          /\ retains_project v p new)
    /\ (check_project_patch (schema env) v db = None ->
        fst (Jwt.put_project env id v db)
        = Responded 200 (JProject (Some (patch_project v p))))
    /\ (project_patch_empty (Session.project_values v) = false ->
        fst (Session.put_project env id v db)
        = Responded 200
            (JProject (Some (patch_project (Session.project_values v) p))))
    /\ (forall id', id' <> id ->
          Project_findByPk id' (snd (Jwt.put_project env id v db))
          = Project_findByPk id' db
          /\ Project_findByPk id' (snd (Session.put_project env id v db))
             = Project_findByPk id' db).
Proof.
  intros env id p v db Hp.
  destruct (jwt_put_project_row env id v p db Hp) as (Hj & Hjok & Hjo).
  destruct (session_put_project_row env id v p db Hp) as (Hs & Hsok & Hso).
  split; [|split; [|split; [|split]]].
  - destruct Hj as [E|E]; eexists; (split; [exact E|]).
    + apply retains_project_same.
    + apply retains_project_patch.
  - destruct Hs as [E|E]; eexists; (split; [exact E|]).
    + apply retains_project_same.
    + apply retains_project_session_patch.
  - intros Hc. by apply Hjok.
  - intros Hne. by apply Hsok.
  - intros id' Hne. split; [by apply Hjo|by apply Hso].
Qed.

(** X9 at a concrete project: "Launch" is renamed, nothing else moves. *)
Lemma X9_witness :
  fst (Session.put_project Sample.closedEnv 1
         (mkProjectPatch (Some "Relaunch") None None None)
         (mkDb [] [mkProject 1 "Launch" (Some "first") "active" 4] [] 1 2 1))
  = Responded 200
      (JProject (Some (mkProject 1 "Relaunch" (Some "first") "active" 4))).
Proof.
  exact (proj1 (proj2 (proj2 (proj2
           (X9_project_update_is_partial Sample.closedEnv 1
              (mkProject 1 "Launch" (Some "first") "active" 4)
              (mkProjectPatch (Some "Relaunch") None None None)
              (mkDb [] [mkProject 1 "Launch" (Some "first") "active" 4] []
                    1 2 1)
              eq_refl)))) eq_refl).
Defined.



(** ** A created task, read back *)

(** X11.  When create-task is answered 201, the task in the answer has
    the table's next identifier, the path's project id, the body's title,
    description and assignee, the body's priority or "medium" when the
    body has none, and the status "pending"; on a store whose task
    identifiers are distinct and below the next one, that identifier then
    finds exactly this task and the task is the last entry of the
    project's task list.  Both servers behave alike here. *)
Theorem X11_created_task_is_found_and_listed :
  forall env (id : nat) (b : TaskBody) db (t : Task) db',
    fresh_ids task_id (taskSeq db) (tasks db) ->
    Jwt.post_project_tasks env id b db = (Responded 201 (JTask (Some t)), db') ->
    Session.post_project_tasks env id b db
      = (Responded 201 (JTask (Some t)), db')
    /\ t = mkTask (taskSeq db) (tb_title b) (tb_description b) id
                  (tb_assignedUserId b) (default "medium" (tb_priority b))
                  "pending"
    /\ Task_findByPk (task_id t) db' = Some t
    /\ Task_findAll_of id db' = (Task_findAll_of id db ++ [t])%list
    /\ fresh_ids task_id (taskSeq db') (tasks db').
Proof.
  intros env id b db t db' Hfresh Hpost.
  split; [by rewrite post_project_tasks_same|].
  unfold Jwt.post_project_tasks, Task_create in Hpost.
  destruct (negb (priorityAccepted _ _)); [discriminate|].
  destruct (_ && _); [discriminate|].
  destruct (negb (check_assignee _ _ _)); [discriminate|].
  injection Hpost as <- <-. split; [reflexivity|]. simpl.
  split; [|split].
  - unfold Task_findByPk, has_task_id. simpl.
    by apply (fresh_ids_find task_id).
  - unfold Task_findAll_of. simpl. rewrite filter_app. f_equal.
    rewrite filter_cons. simpl.
    destruct (decide (Nat.eqb id id = true)) as [_|E]; [done|].
    by rewrite Nat.eqb_refl in E.
  - by apply (fresh_ids_snoc task_id).
Qed.

(** X11 at a concrete request: a second task for project 1. *)
Lemma X11_witness :
  Task_findAll_of 1
    (snd (Jwt.post_project_tasks Sample.closedEnv 1
            (mkTaskBody "Review" None None None)
            (mkDb [] [mkProject 1 "Launch" None "active" 1]
                  [mkTask 1 "Write report" None 1 None "high" "pending"]
                  1 2 2)))
  = [ mkTask 1 "Write report" None 1 None "high" "pending";
      mkTask 2 "Review" None 1 None "medium" "pending" ].
Proof.
  refine (proj1 (proj2 (proj2 (proj2
            (X11_created_task_is_found_and_listed Sample.closedEnv 1
               (mkTaskBody "Review" None None None)
               (mkDb [] [mkProject 1 "Launch" None "active" 1]
                     [mkTask 1 "Write report" None 1 None "high" "pending"]
                     1 2 2)
               (mkTask 2 "Review" None 1 None "medium" "pending")
               _ _ eq_refl))))).
  split; [repeat constructor|].
  simpl. apply NoDup_singleton.
Defined.

(** ** Logout, and how long a session lasts *)

(** X12.  The session server's logout needs no login: whatever cookie the
    request carries, it is answered 200, and the database is left as it
    was.  It ends the presented session only: on a store all of whose
    entries are under ids the server handed out, the entry of every other
    session id is what it was. *)
Theorem X12_logout_ends_only_the_presented_session :
  forall env now (c : option nat) (w : Session.World),
    issued w ->
    fst (Session.handle env now PostLogout c w)
      = Responded 200 (JMessage "Logout successful")
    /\ Session.db (snd (Session.handle env now PostLogout c w)) = Session.db w
    /\ (forall k, c <> Some k ->
          Session.sessions (snd (Session.handle env now PostLogout c w)) !! k
          = Session.sessions w !! k).
Proof.
  intros env now c w Hissued.
  assert (Hfresh : forall k, k <> Session.sidSeq w ->
             delete (Session.sidSeq w) (Session.sessions w) !! k
             = Session.sessions w !! k).
  { intros k Hk. by rewrite lookup_delete_ne. }
  assert (Hnext : Session.sessions w !! Session.sidSeq w = None).
  { destruct (Session.sessions w !! Session.sidSeq w) as [st|] eqn:E; [|done].
    apply Hissued in E. lia. }
  assert (Hdel : forall k, delete (Session.sidSeq w) (Session.sessions w) !! k
                           = Session.sessions w !! k).
  { intros k. destruct (decide (k = Session.sidSeq w)) as [->|Hk].
    - by rewrite lookup_delete_eq, Hnext.
    - by apply Hfresh. }
  unfold Session.handle, Session.load, Session.generate. simpl.
  destruct c as [sid|]; simpl.
  - destruct (Session.sessions w !! sid) as [st|] eqn:Hs; simpl.
    + destruct (Session.expires st <=? now)%Z; simpl.
      * repeat split; try done. intros k Hk.
        assert (Hne : sid <> k) by congruence.
        destruct (decide (k = Session.sidSeq w)) as [->|Hk'].
        -- rewrite lookup_delete_eq. by rewrite Hnext.
        -- rewrite lookup_delete_ne by done. by rewrite lookup_delete_ne.
      * repeat split; try done. intros k Hk.
        assert (Hne : sid <> k) by congruence.
        by rewrite lookup_delete_ne.
    + repeat split; try done.
  - repeat split; try done.
Qed.

(** X12 at a concrete run: alice and bob are logged in (sessions 1 and
    3); bob logs out, alice's entry stays. *)
Lemma X12_witness :
  Session.sessions
    (snd (Session.handle Sample.closedEnv 50 PostLogout (Some 3)
            (Session.mkWorld Store.empty
               {[ 1 := Session.mkStored
                         (Session.mkSessionUser 1 "alice" "alice@x.com") 900;
                  3 := Session.mkStored
                         (Session.mkSessionUser 2 "bob" "bob@x.com") 950 ]}
               4))) !! 1
  = Some (Session.mkStored (Session.mkSessionUser 1 "alice" "alice@x.com") 900).
Proof.
  refine (eq_trans
            (proj2 (proj2
               (X12_logout_ends_only_the_presented_session Sample.closedEnv 50
                  (Some 3)
                  (Session.mkWorld Store.empty
                     {[ 1 := Session.mkStored
                               (Session.mkSessionUser 1 "alice" "alice@x.com")
                               900;
                        3 := Session.mkStored
                               (Session.mkSessionUser 2 "bob" "bob@x.com")
                               950 ]}
                     4)
                  _)) 1 _)
            eq_refl).
  - intros sid st Hl. cbn [Session.sessions Session.sidSeq] in *.
    apply lookup_insert_Some in Hl as [[<- _]|[_ Hl]]; [lia|].
    apply lookup_singleton_Some in Hl as [<- _]. lia.
  - discriminate.
Defined.

Lemma handler_keeps_session env (r : Route) (req : Session.Req)
    (w : Session.World) :
  r <> PostLogout ->
  (forall b, r <> PostLogin b) ->
  snd (fst (Session.handler env r req w)) = Session.session req
  /\ Session.sessions (snd (Session.handler env r req w)) = Session.sessions w.
Proof.
  intros Hout Hin. destruct r; simpl; try done.
  by destruct (Hin b).
Qed.

(** X13.  In the session server the 24 hours of a session count from its
    last answered request, not from the login: when a request other than
    login and logout presents a live session and is answered (whatever
    the status), that session is afterwards stored with the same user and
    an expiry 24 hours after the request, so that it is still the session
    loaded at every time before that, and the entries of all other
    sessions are what they were. *)
Theorem X13_answered_request_renews_session :
  forall env now (r : Route) (sid : nat) (st : Session.Stored)
         (w : Session.World) (status : nat) (body : Json),
    Session.sessions w !! sid = Some st ->
    (now < Session.expires st)%Z ->
    r <> PostLogout ->
    (forall b, r <> PostLogin b) ->
    fst (Session.handle env now r (Some sid) w) = Responded status body ->
    let w' := snd (Session.handle env now r (Some sid) w) in
    Session.sessions w' !! sid
      = Some (Session.mkStored (Session.data st) (now + Session.maxAge))
    /\ (forall k, k <> sid ->
          Session.sessions w' !! k = Session.sessions w !! k)
    /\ (forall later,
          (later < now + Session.maxAge)%Z ->
          Session.load later (Some sid) w'
          = (Session.mkReq sid (Session.Live (Some (Session.data st))) None,
             w')).
Proof.
  intros env now r sid st w status body Hs Hlt Hout Hin Ho w'.
  assert (Hmain :
            Session.sessions w' !! sid
            = Some (Session.mkStored (Session.data st) (now + Session.maxAge))
            /\ (forall k, k <> sid ->
                  Session.sessions w' !! k = Session.sessions w !! k)).
  { subst w'. revert Ho. unfold Session.handle.
    rewrite (load_live now sid st w Hs Hlt).
    destruct (run_chain (Session.middlewares r) _) as [req'|s b] eqn:Hc.
    - destruct (chain_keeps_session r _ req' Hc) as [Hid Hsess].
      simpl in Hid, Hsess.
      destruct (handler_keeps_session env r req' w Hout Hin) as [Hs' Hm].
      destruct (Session.handler env r req' w) as [[o s] w2].
      simpl in Hs', Hm. subst s. rewrite Hsess, Hid.
      simpl. intros ->. simpl. rewrite Hm.
      split; [apply lookup_insert_eq|].
      intros k Hk. by rewrite lookup_insert_ne.
    - simpl. intros _. split; [apply lookup_insert_eq|].
      intros k Hk. by rewrite lookup_insert_ne. }
  destruct Hmain as [Hentry Hothers]. split; [exact Hentry|].
  split; [exact Hothers|].
  intros later Hlater.
  by rewrite (load_live later sid _ w' Hentry Hlater).
Qed.

(** X13 at a concrete run: bob's session, made at time 20, is used at
    time 80000000 and is therefore still good at time 90000000, more than
    24 hours after the login. *)
Lemma X13_witness :
  Session.sessions
    (snd (Session.handle Sample.closedEnv 80000000 GetProjects (Some 1)
            (Session.mkWorld
               (mkDb [mkUser 1 "bob" "bob@x.com" (Sample.salted "pw") "employee"]
                     [] [] 2 1 1)
               {[ 1 := Session.mkStored
                         (Session.mkSessionUser 1 "bob" "bob@x.com") 86400020 ]}
               2))) !! 1
  = Some (Session.mkStored (Session.mkSessionUser 1 "bob" "bob@x.com")
                           166400000).
Proof.
  refine (proj1 (X13_answered_request_renews_session Sample.closedEnv 80000000
                   GetProjects 1
                   (Session.mkStored (Session.mkSessionUser 1 "bob" "bob@x.com")
                                     86400020)
                   (Session.mkWorld
                      (mkDb [mkUser 1 "bob" "bob@x.com" (Sample.salted "pw")
                                    "employee"] [] [] 2 1 1)
                      {[ 1 := Session.mkStored
                                (Session.mkSessionUser 1 "bob" "bob@x.com")
                                86400020 ]}
                      2)
                   200 (JProjects [])
                   eq_refl eq_refl _ _ eq_refl)); discriminate.
Defined.

(** X14.  In the session server a login on a request that presents a live
    session keeps the session id: no new id is generated, and the entry
    under the presented id now names the user who logged in, whoever it
    named before; a failed login on such a request leaves the previous
    user's entry in place (with its expiry renewed). *)
Theorem X14_login_keeps_the_presented_session_id :
  forall env now (sid : nat) (st : Session.Stored) (w : Session.World)
         (b : LoginBody),
    Session.sessions w !! sid = Some st ->
    (now < Session.expires st)%Z ->
    let w' := snd (Session.handle env now (PostLogin b) (Some sid) w) in
    Session.cookie_of now (Some sid) w = sid
    /\ Session.sidSeq w' = Session.sidSeq w
    /\ Session.sessions w' !! sid
       = Some (Session.mkStored
                 match User_findOne (lb_email b) (Session.db w) with
                 | Some u =>
                     match compare_password env (lb_password b)
                                            (user_password u) with
                     | Ok true =>
                         Session.mkSessionUser (user_id u) (user_name u)
                                               (user_email u)
                     | Ok false | Threw _ => Session.data st
                     end
                 | None => Session.data st
                 end
                 (now + Session.maxAge)).
Proof.
  intros env now sid st w b Hs Hlt w'. subst w'.
  unfold Session.cookie_of, Session.handle.
  rewrite (load_live now sid st w Hs Hlt). simpl.
  unfold Session.post_login. simpl.
  destruct (User_findOne (lb_email b) (Session.db w)) as [u|]; simpl.
  - destruct (compare_password env (lb_password b) (user_password u))
      as [[|]|e]; simpl; repeat split; apply lookup_insert_eq.
  - repeat split; apply lookup_insert_eq.
Qed.

(** X14 at a concrete request: on the session alice is logged in with,
    bob logs in. *)
Lemma X14_witness :
  Session.sessions
    (snd (Session.handle Sample.closedEnv 50
            (PostLogin (mkLoginBody "bob@x.com" (Some "pw"))) (Some 1)
            (Session.mkWorld
               (mkDb [mkUser 1 "alice" "alice@x.com" (Sample.salted "a") "employee";
                      mkUser 2 "bob" "bob@x.com" (Sample.salted "pw") "employee"]
                     [] [] 3 1 1)
               {[ 1 := Session.mkStored
                         (Session.mkSessionUser 1 "alice" "alice@x.com") 900 ]}
               2))) !! 1
  = Some (Session.mkStored (Session.mkSessionUser 2 "bob" "bob@x.com")
                           (50 + Session.maxAge)).
Proof.
  exact (proj2 (proj2
           (X14_login_keeps_the_presented_session_id Sample.closedEnv 50 1
              (Session.mkStored (Session.mkSessionUser 1 "alice" "alice@x.com")
                                900)
              (Session.mkWorld
                 (mkDb [mkUser 1 "alice" "alice@x.com" (Sample.salted "a")
                               "employee";
                        mkUser 2 "bob" "bob@x.com" (Sample.salted "pw")
                               "employee"]
                       [] [] 3 1 1)
                 {[ 1 := Session.mkStored
                           (Session.mkSessionUser 1 "alice" "alice@x.com") 900 ]}
                 2)
              (mkLoginBody "bob@x.com" (Some "pw")) eq_refl eq_refl))).
Defined.

(** ** The profile of the user who logged in *)

Lemma find_some_elem {A : Type} (f : A -> bool) (l : list A) x :
  find f l = Some x -> x ∈ l.
Proof.
  induction l as [|y l IH]; simpl; [discriminate|].
  destruct (f y); [intros [= ->]; apply list_elem_of_here|].
  intros H. apply list_elem_of_further. by apply IH.
Qed.

Lemma find_by_distinct_key {A : Type} (key : A -> nat) (l : list A) x :
  NoDup (key <$> l) -> x ∈ l ->
  find (fun y => Nat.eqb (key y) (key x)) l = Some x.
Proof.
  induction l as [|y l IH]; intros Hnd Hin; [by apply elem_of_nil in Hin|].
  rewrite fmap_cons in Hnd. apply NoDup_cons in Hnd as [Hy Hnd]. simpl.
  apply elem_of_cons in Hin as [->|Hin]; [by rewrite Nat.eqb_refl|].
  destruct (Nat.eqb_spec (key y) (key x)) as [E|E]; [|by apply IH].
  exfalso. apply Hy. rewrite E. apply list_elem_of_fmap. by exists x.
Qed.

(** X15.  On a store whose user identifiers are pairwise distinct, the
    profile route shows the user who logged in.  Bearer-token server: the
    token of a successful login, presented before it expires, gets 200
    with the id, name, email and role of that user's row.  Session server:
    the session of a successful login, presented within 24 hours by a
    user whose id is not 0, gets 200 with the id, name and email of that
    user's row (and no role). *)
Theorem X15_profile_shows_the_logged_in_user :
  forall env now later db (b : LoginBody) (u : User)
         (c : option nat) (m : gmap nat Session.Stored) (n : nat),
    NoDup (user_id <$> users db) ->
    User_findOne (lb_email b) db = Some u ->
    compare_password env (lb_password b) (user_password u) = Ok true ->
    ((later < now + JWT_EXPIRES_IN env)%Z ->
     Jwt.handle env later GetProfile
       (Some (Jwt.Bearer
                (Token.sign (hmac env) (user_id u) (user_name u) (user_email u)
                            (user_role u) (JWT_SECRET env) (JWT_EXPIRES_IN env)
                            now)))
       db
     = (Responded 200 (JUser (Some (Jwt.view u))), db))
    /\ ((later < now + Session.maxAge)%Z ->
        user_id u <> 0 ->
        let w := Session.mkWorld db m n in
        fst (Session.handle env later GetProfile
               (Some (Session.cookie_of now c w))
               (snd (Session.handle env now (PostLogin b) c w)))
        = Responded 200 (JUser (Some (summary u)))).
Proof.
  intros env now later db b u c m n Hnd Hu Hc.
  assert (Hpk : User_findByPk (user_id u) db = Some u).
  { unfold User_findByPk. apply (find_by_distinct_key user_id); [done|].
    by apply find_some_elem in Hu. }
  split.
  - intros Hlt. unfold Jwt.handle, Jwt.middlewares. simpl.
    unfold Jwt.authenticateJWT, Token.sign, Token.verify. simpl.
    rewrite String.eqb_refl.
    destruct (Z.leb_spec (now + JWT_EXPIRES_IN env) later); [lia|].
    simpl. unfold Jwt.with_user, Jwt.get_profile. simpl. by rewrite Hpk.
  - intros Hlt Hid w.
    rewrite (login_stores_session env now c w b u Hu Hc). simpl.
    unfold Session.handle.
    erewrite load_live; [|apply lookup_insert_eq|simpl; lia]. simpl.
    unfold Session.requireAuth. simpl.
    destruct (Nat.eqb_spec (user_id u) 0); [done|]. simpl.
    unfold Session.with_user, Session.get_profile. simpl. by rewrite Hpk.
Qed.

(** X15 at a concrete login: bob, then his profile over the token. *)
Lemma X15_witness :
  Jwt.handle Sample.closedEnv 60 GetProfile
    (Some (Jwt.Bearer
             (Token.sign Sample.digest 2 "bob" "bob@x.com" "manager" "secret"
                         3600 50)))
    (mkDb [mkUser 1 "alice" "alice@x.com" (Sample.salted "a") "employee";
           mkUser 2 "bob" "bob@x.com" (Sample.salted "pw") "manager"]
          [] [] 3 1 1)
  = (Responded 200
       (JUser (Some (mkUserView 2 "bob" "bob@x.com" (Some "manager")))),
     mkDb [mkUser 1 "alice" "alice@x.com" (Sample.salted "a") "employee";
           mkUser 2 "bob" "bob@x.com" (Sample.salted "pw") "manager"]
          [] [] 3 1 1).
Proof.
  refine (proj1 (X15_profile_shows_the_logged_in_user Sample.closedEnv 50 60
                   (mkDb [mkUser 1 "alice" "alice@x.com" (Sample.salted "a")
                                 "employee";
                          mkUser 2 "bob" "bob@x.com" (Sample.salted "pw")
                                 "manager"]
                         [] [] 3 1 1)
                   (mkLoginBody "bob@x.com" (Some "pw"))
                   (mkUser 2 "bob" "bob@x.com" (Sample.salted "pw") "manager")
                   None ∅ 0 _ eq_refl eq_refl) eq_refl).
  apply (bool_decide_unpack _). reflexivity.
Defined.
